(** * setup_vscode.py: the VS Code settings rewriter of the orbit project

    A shallow embedding of [.vscode/tools/setup_vscode.py] and of the parts
    of the Python library it calls ([str] methods, [os.path.join],
    [re.escape], [re.search], [re.sub]), followed by the properties of the
    script that its specification states.

    Modelling conventions.
    - A Python [str] is a list of characters; a character is a code point
      below 256 ([ascii]).
    - The file system is a finite map from path strings to file contents;
      the content of a file is the text that reading it returns. Distinct
      path strings are distinct files (no links, no path normalisation),
      every entry is a regular file, and opening a file for writing always
      succeeds.
    - Code that can raise returns an [outcome]; code that touches the file
      system is a function on [world], which also records the file-system
      operations performed, in order.
    - The [re] library is modelled as CPython implements it (3.7 and later):
      backtracking search for the leftmost match, and replacement strings
      read as templates. *)

From stdpp Require Import base option list strings gmap.
From Stdlib Require Import Ascii Lia.

Set Default Proof Using "Type".
Local Open Scope stdpp_scope.

(** ** Python strings *)

Abbreviation str := (list ascii).

(** A string literal of the script. *)
Definition lit (s : string) : str := String.list_ascii_of_string s.

Definition dq : ascii := "034"%char.      (* the double quote *)
Definition bslash : ascii := "092"%char.  (* the backslash *)
Definition nl : ascii := "010"%char.
Definition cr : ascii := "013"%char.
Definition tab : ascii := "009"%char.
Definition sp : ascii := " "%char.

Definition chr (n : nat) : ascii := ascii_of_nat n.
Definition ord (c : ascii) : nat := nat_of_ascii c.

Definition in_range (lo hi : nat) (c : ascii) : bool :=
  (lo <=? ord c) && (ord c <=? hi).

Definition is_digit (c : ascii) : bool := in_range 48 57 c.
Definition is_octdigit (c : ascii) : bool := in_range 48 55 c.
Definition is_ascii_letter (c : ascii) : bool :=
  in_range 65 90 c || in_range 97 122 c.
Definition digit_val (c : ascii) : nat := ord c - 48.

(** [str.isspace] on one character, for code points below 256. *)
Definition isspace (c : ascii) : bool :=
  in_range 9 13 c || in_range 28 32 c || (ord c =? 133) || (ord c =? 160).

(** [s.startswith(p)] *)
Fixpoint startswith (p s : str) : bool :=
  match p, s with
  | [], _ => true
  | _ :: _, [] => false
  | a :: p', b :: s' => Ascii.eqb a b && startswith p' s'
  end.

(** [s.endswith(p)] *)
Definition endswith (p s : str) : bool := startswith (rev p) (rev s).

(** [s.lstrip(chars)], [s.rstrip(chars)], [s.strip(chars)], the set of
    characters given as a predicate. *)
Fixpoint lstrip (f : ascii → bool) (s : str) : str :=
  match s with
  | c :: s' => if f c then lstrip f s' else s
  | [] => []
  end.
Definition rstrip (f : ascii → bool) (s : str) : str := rev (lstrip f (rev s)).
Definition strip (f : ascii → bool) (s : str) : str := rstrip f (lstrip f s).

(** [s.strip()] *)
Definition strip_ws : str → str := strip isspace.
(** [s.strip(chars)] *)
Definition strip_chars (chars : str) : str → str :=
  strip (λ c, existsb (Ascii.eqb c) chars).

(** [sep.join(l)] *)
Fixpoint join (sep : str) (l : list str) : str :=
  match l with
  | [] => []
  | [x] => x
  | x :: l' => x ++ sep ++ join sep l'
  end.

(** [s.expandtabs(tabsize)]: [col] is the column reached on the current
    line. *)
Fixpoint expandtabs_from (tabsize col : nat) (s : str) : str :=
  match s with
  | [] => []
  | c :: s' =>
      if Ascii.eqb c tab then
        match tabsize with
        | 0 => expandtabs_from tabsize col s'
        | S _ =>
            let incr := tabsize - col mod tabsize in
            replicate incr sp ++ expandtabs_from tabsize (col + incr) s'
        end
      else
        c :: expandtabs_from tabsize
               (if Ascii.eqb c nl || Ascii.eqb c cr then 0 else S col) s'
  end.
Definition expandtabs (tabsize : nat) (s : str) : str :=
  expandtabs_from tabsize 0 s.

(** [s.split(sep)] for a non-empty [sep], scanning left to right: [skip]
    counts the characters of a separator that are still to be dropped. The
    result is never empty. *)
Definition cons_head (c : ascii) (l : list str) : list str :=
  match l with
  | [] => [[c]]
  | p :: l' => (c :: p) :: l'
  end.

Fixpoint split_go (sep s : str) (skip : nat) : list str :=
  match s with
  | [] => [[]]
  | c :: s' =>
      match skip with
      | S k => split_go sep s' k
      | 0 =>
          if startswith sep s
          then [] :: split_go sep s' (length sep - 1)
          else cons_head c (split_go sep s' 0)
      end
  end.

(** ** Exceptions and outcomes *)

Inductive exn :=
  | FileNotFoundError (msg : str)
      (* raised by the script itself, with its message *)
  | FileNotFoundErrno (filename : str)
      (* FileNotFoundError(2, 'No such file or directory') raised by open() *)
  | AttributeError (msg : str)
  | ValueError (msg : str)
  | TemplateError.
      (* the replacement template of re.sub is rejected: re.error *)

(** [NotModelled] is not a Python behaviour: it marks an input on which the
    model of the [re] library says nothing (regular-expression syntax beyond
    the fragment below, group references by name). *)
Inductive outcome (A : Type) :=
  | Ok (a : A)
  | Raise (e : exn)
  | NotModelled.
Arguments Ok {A} a.
Arguments Raise {A} e.
Arguments NotModelled {A}.

Definition obind {A B} (o : outcome A) (f : A → outcome B) : outcome B :=
  match o with
  | Ok a => f a
  | Raise e => Raise e
  | NotModelled => NotModelled
  end.

Definition str_split (sep s : str) : outcome (list str) :=
  match sep with
  | [] => Raise (ValueError (lit "empty separator"))
  | _ :: _ => Ok (split_go sep s 0)
  end.

(** ** os.path.join (posixpath) *)

Definition os_path_join2 (path b : str) : str :=
  if startswith ["/"%char] b then b
  else if bool_decide (path = []) || endswith ["/"%char] path then path ++ b
  else path ++ "/"%char :: b.

Definition os_path_join (a : str) (p : list str) : str :=
  foldl os_path_join2 a p.

(** ** The re library

    The fragment of the regular-expression syntax that the script uses:
    literal characters, backslash followed by a character that is not an
    ASCII letter or digit (a literal), [.] and the lazy [.*?]. None of these
    is a group, so a pattern has group 0 only. *)

Inductive re_item :=
  | RChar (c : ascii)   (* a literal character *)
  | RAny                (* [.] *)
  | RLazyAny.           (* [.*?] *)

Abbreviation regex := (list re_item).

(** The characters that [re.escape] escapes; they include every character
    with a special meaning in a pattern. *)
Definition special_chars : str :=
  lit "()[]{}?*+-|^$\.&~# " ++ [tab; nl; cr; chr 11; chr 12].

Definition is_special (c : ascii) : bool := existsb (Ascii.eqb c) special_chars.

(** [re.escape(pattern)] *)
Definition re_escape (pattern : str) : str :=
  flat_map (λ c, if is_special c then [bslash; c] else [c]) pattern.

(** The characters with a special meaning in a pattern (the backslash is
    handled apart). *)
Definition is_meta (c : ascii) : bool :=
  existsb (Ascii.eqb c) (lit ".^$*+?{}[]|()").

(** Compiling a pattern; [None] when the pattern is outside the fragment. *)
Fixpoint re_parse (p : str) : option regex :=
  match p with
  | [] => Some []
  | c :: p' =>
      if Ascii.eqb c bslash then
        match p' with
        | [] => None
        | e :: p'' =>
            if is_ascii_letter e || is_digit e then None
            else cons (RChar e) <$> re_parse p''
        end
      else if Ascii.eqb c "."%char then
        match p' with
        | "*"%char :: "?"%char :: p'' => cons RLazyAny <$> re_parse p''
        | _ => cons RAny <$> re_parse p'
        end
      else if is_meta c then None
      else cons (RChar c) <$> re_parse p'
  end.

(** [.] matches any character, a newline only under [re.DOTALL]. *)
Definition any_ok (dotall : bool) (c : ascii) : bool :=
  dotall || negb (Ascii.eqb c nl).

Definition consume (c : ascii) (r : option (str * str)) : option (str * str) :=
  match r with
  | Some (m, rest) => Some (c :: m, rest)
  | None => None
  end.

(** The backtracking matcher, anchored at the start of [s]: the matched text
    and what follows it. [adv] is the engine's [must_advance]: an empty
    match is refused. A lazy star tries the rest of the pattern first and
    takes one more character only when that fails. *)
Fixpoint match_here (dotall : bool) (p : regex) (s : str) (adv : bool)
    : option (str * str) :=
  match p with
  | [] => if adv then None else Some ([], s)
  | RChar c :: p' =>
      match s with
      | x :: s' =>
          if Ascii.eqb x c then consume x (match_here dotall p' s' false)
          else None
      | [] => None
      end
  | RAny :: p' =>
      match s with
      | x :: s' =>
          if any_ok dotall x then consume x (match_here dotall p' s' false)
          else None
      | [] => None
      end
  | RLazyAny :: p' =>
      (fix lazy (s : str) (adv : bool) {struct s} : option (str * str) :=
         match match_here dotall p' s adv with
         | Some r => Some r
         | None =>
             match s with
             | x :: s' =>
                 if any_ok dotall x then consume x (lazy s' false) else None
             | [] => None
             end
         end) s adv
  end.

(** Scanning for the leftmost match: the text before it, the match, and the
    text after it. [must_advance] applies to the first position only. *)
Fixpoint search_from (dotall : bool) (p : regex) (s : str) (adv : bool)
    : option (str * str * str) :=
  match match_here dotall p s adv with
  | Some (m, rest) => Some ([], m, rest)
  | None =>
      match s with
      | [] => None
      | x :: s' =>
          match search_from dotall p s' false with
          | Some (pre, m, rest) => Some (x :: pre, m, rest)
          | None => None
          end
      end
  end.

(** [re.search(pattern, string, flags)] followed by [.group(0)]: on no match
    [re.search] returns [None], which has no attribute [group]. *)
Definition re_search_group0 (pattern s : str) (dotall : bool) : outcome str :=
  match re_parse pattern with
  | None => NotModelled
  | Some p =>
      match search_from dotall p s false with
      | Some (_, m, _) => Ok m
      | None =>
          Raise (AttributeError
                   (lit "'NoneType' object has no attribute 'group'"))
      end
  end.

(** *** Replacement templates

    [re.sub] reads its replacement string as a template: a backslash starts
    an escape. With no group in the pattern the only group reference that is
    accepted is group 0, the whole match. The template is compiled before
    the string is searched, so a rejected template raises even when the
    pattern occurs nowhere. *)

Inductive tpl_item :=
  | TChar (c : ascii)
  | TWhole.            (* \g<0>: the whole match *)

Inductive tpl_mode :=
  | MText
  | MName (nonempty zero : bool).  (* inside \g<...>, digits read so far *)

Definition tpl_cons (i : tpl_item) (r : outcome (list tpl_item))
    : outcome (list tpl_item) :=
  obind r (λ l, Ok (i :: l)).

(** The escapes that stand for a control character. *)
Definition tpl_escape (c : ascii) : option ascii :=
  if Ascii.eqb c "a"%char then Some (chr 7)
  else if Ascii.eqb c "b"%char then Some (chr 8)
  else if Ascii.eqb c "f"%char then Some (chr 12)
  else if Ascii.eqb c "n"%char then Some nl
  else if Ascii.eqb c "r"%char then Some cr
  else if Ascii.eqb c "t"%char then Some tab
  else if Ascii.eqb c "v"%char then Some (chr 11)
  else if Ascii.eqb c bslash then Some bslash
  else None.

(** [parse_template] of the re library for a pattern without groups. A
    group name that is not a decimal number is accepted, rejected or an
    unknown name depending on the library version: not modelled. *)
Fixpoint parse_template (s : str) (m : tpl_mode) : outcome (list tpl_item) :=
  match m with
  | MName nonempty zero =>
      match s with
      | [] => Raise TemplateError
      | c :: s' =>
          if Ascii.eqb c ">"%char then
            if nonempty && zero then tpl_cons TWhole (parse_template s' MText)
            else Raise TemplateError
          else if is_digit c then
            parse_template s' (MName true (zero && Ascii.eqb c "0"%char))
          else NotModelled
      end
  | MText =>
      match s with
      | [] => Ok []
      | c :: s' =>
          if negb (Ascii.eqb c bslash) then
            tpl_cons (TChar c) (parse_template s' MText)
          else
            match s' with
            | [] => Raise TemplateError
            | e :: s'' =>
                if Ascii.eqb e "g"%char then
                  match s'' with
                  | "<"%char :: s3 => parse_template s3 (MName false true)
                  | _ => Raise TemplateError
                  end
                else if Ascii.eqb e "0"%char then
                  match s'' with
                  | o1 :: s3 =>
                      if is_octdigit o1 then
                        match s3 with
                        | o2 :: s4 =>
                            if is_octdigit o2 then
                              tpl_cons
                                (TChar (chr ((8 * digit_val o1 + digit_val o2)
                                             mod 256)))
                                (parse_template s4 MText)
                            else
                              tpl_cons (TChar (chr (digit_val o1)))
                                (parse_template s3 MText)
                        | [] =>
                            tpl_cons (TChar (chr (digit_val o1)))
                              (parse_template s3 MText)
                        end
                      else tpl_cons (TChar (chr 0)) (parse_template s'' MText)
                  | [] => tpl_cons (TChar (chr 0)) (parse_template s'' MText)
                  end
                else if is_digit e then
                  match s'' with
                  | d :: o :: s4 =>
                      if is_octdigit e && is_octdigit d && is_octdigit o then
                        let v := 64 * digit_val e + 8 * digit_val d
                                 + digit_val o in
                        if 255 <? v then Raise TemplateError
                        else tpl_cons (TChar (chr v)) (parse_template s4 MText)
                      else Raise TemplateError
                  | _ => Raise TemplateError
                  end
                else
                  match tpl_escape e with
                  | Some x => tpl_cons (TChar x) (parse_template s'' MText)
                  | None =>
                      if is_ascii_letter e then Raise TemplateError
                      else
                        tpl_cons (TChar c)
                          (tpl_cons (TChar e) (parse_template s'' MText))
                  end
            end
      end
  end.

(** [expand_template]: the text that replaces the match [m]. *)
Definition expand_template (t : list tpl_item) (m : str) : str :=
  flat_map (λ i, match i with TChar c => [c] | TWhole => m end) t.

(** The substitution loop of [re.sub] with [count=0]: search from the end of
    the previous match, copy the text before the match, append the
    replacement, and go on after the match; after an empty match the next
    one has to advance. [None] only when the fuel runs out. *)
Fixpoint sub_loop (fuel : nat) (dotall : bool) (p : regex) (t : list tpl_item)
    (s : str) (adv : bool) : option str :=
  match fuel with
  | 0 => None
  | S n =>
      match search_from dotall p s adv with
      | None => Some s
      | Some (pre, m, rest) =>
          match sub_loop n dotall p t rest (bool_decide (m = [])) with
          | Some r => Some (pre ++ expand_template t m ++ r)
          | None => None
          end
      end
  end.

(** [re.sub(pattern, repl, string, flags=...)] *)
Definition re_sub (pattern repl s : str) (dotall : bool) : outcome str :=
  match re_parse pattern with
  | None => NotModelled
  | Some p =>
      obind (parse_template repl MText) (λ t,
        match sub_loop (2 * length s + 2) dotall p t s false with
        | Some r => Ok r
        | None => NotModelled
        end)
  end.

(** ** The file system *)

Inductive event :=
  | EvExists (path : str)         (* os.path.exists(path) *)
  | EvRead (path : str)           (* open(path) and f.read() *)
  | EvWrite (path data : str).    (* open(path, "w") and f.write(data) *)

Record world := World {
  files : gmap str str;
  trace : list event;
}.

Definition log (e : event) (w : world) : world :=
  World (files w) (trace w ++ [e]).

Definition IO (A : Type) : Type := world → outcome A * world.

Definition ret {A} (a : A) : IO A := λ w, (Ok a, w).
Definition raise {A} (e : exn) : IO A := λ w, (Raise e, w).
Definition lift {A} (o : outcome A) : IO A := λ w, (o, w).
Definition bind {A B} (m : IO A) (f : A → IO B) : IO B :=
  λ w, match m w with
       | (Ok a, w') => f a w'
       | (Raise e, w') => (Raise e, w')
       | (NotModelled, w') => (NotModelled, w')
       end.

Notation "'let*' x ':=' m 'in' f" := (bind m (λ x, f))
  (at level 10, x name, m at level 100, f at level 200, only parsing).

Definition os_path_exists (path : str) : IO bool :=
  λ w, (Ok (bool_decide (is_Some (files w !! path))), log (EvExists path) w).

Definition read_file (path : str) : IO str :=
  λ w, match files w !! path with
       | Some data => (Ok data, log (EvRead path) w)
       | None => (Raise (FileNotFoundErrno path), w)
       end.

Definition write_file (path data : str) : IO unit :=
  λ w, (Ok (), World (<[path := data]> (files w)) (trace w ++ [EvWrite path data])).

(** ** setup_vscode.py *)

(** *** overwrite_python_default_interpreter_path *)

Definition default_python_interpreter_key : str :=
  dq :: lit "python.defaultInterpreterPath" ++ dq :: lit ": ".
Definition default_python_interpreter_value : str :=
  dq :: lit "${env:ORBIT_PATH}/_isaac_sim/python.sh" ++ [dq].

Definition new_interpreter_path (isaac_sim_dir : str) : str :=
  default_python_interpreter_key
  ++ dq :: os_path_join isaac_sim_dir [lit "python.sh"] ++ [dq].

Definition overwrite_python_default_interpreter_path
    (ws_settings isaac_sim_dir : str) : outcome str :=
  let pattern :=
    re_escape (default_python_interpreter_key
               ++ default_python_interpreter_value) in
  re_sub pattern (new_interpreter_path isaac_sim_dir) ws_settings false.

(** *** overwrite_python_analysis_extra_paths *)

(** The raw pattern literal of the script: backslash-quote, the key with its
    unescaped dots, backslash-quote, colon, space, an escaped opening
    bracket, [.*?] and an escaped closing bracket. *)
Definition extra_paths_pattern : str :=
  bslash :: dq :: lit "python.analysis.extraPaths" ++ bslash :: dq
  :: lit ": \[.*?\]".

(** The literal that the script splits on and writes back. *)
Definition extra_paths_key : str :=
  dq :: lit "python.analysis.extraPaths" ++ dq :: lit ": [".

Definition isaacsim_vscode_filename (isaac_sim_dir : str) : str :=
  os_path_join isaac_sim_dir [lit ".vscode"; lit "settings.json"].

(** Lines 76 to 79: the text between the key and the first closing
    bracket. *)
Definition extract_settings (vscode_settings : str) : outcome str :=
  obind (re_search_group0 extra_paths_pattern vscode_settings true) (λ settings,
  obind (str_split extra_paths_key settings) (λ parts,
  let settings := List.last parts [] in
  obind (str_split (lit "]") settings) (λ parts,
  Ok (hd [] parts)))).

(** Lines 82 to 84: the quoted, prefixed path names. *)
Definition path_names (isaac_sim_dir settings : str) : list str :=
  let path_names := split_go (lit ",") settings 0 in
  let path_names := map (λ path_name, strip_chars [dq] (strip_ws path_name))
                        path_names in
  map (λ path_name, dq :: isaac_sim_dir ++ lit "/" ++ path_name ++ [dq])
      (filter (λ path_name, 0 < length path_name) path_names).

(** Lines 85 and 90: the list literal that is written into the template. *)
Definition extra_paths_literal (isaac_sim_dir settings : str) : str :=
  let path_names :=
    join (expandtabs 4 (lit "," ++ [nl; tab; tab]))
         (path_names isaac_sim_dir settings) in
  expandtabs 4 (extra_paths_key ++ [nl; tab; tab])
  ++ path_names ++ expandtabs 4 ([nl; tab] ++ lit "]").

Definition overwrite_python_analysis_extra_paths
    (ws_settings isaac_sim_dir : str) : IO str :=
  let filename := isaacsim_vscode_filename isaac_sim_dir in
  let* found := os_path_exists filename in
  if negb found then
    raise (FileNotFoundError
             (lit "Could not find the isaac-sim settings file: " ++ filename))
  else
    let* vscode_settings := read_file filename in
    let* settings := lift (extract_settings vscode_settings) in
    lift (re_sub extra_paths_pattern
            (extra_paths_literal isaac_sim_dir settings) ws_settings true).

(** *** header_msg *)

Definition header_msg (src : str) : str :=
  lit "// This file is a template and is automatically generated by the setup_vscode.py script."
  ++ [nl]
  ++ lit "// Do not edit this file directly." ++ [nl]
  ++ lit "// " ++ [nl]
  ++ lit "// Generated from: " ++ src ++ [nl].

(** *** main

    [ws_dir] is [WS_DIR], the directory two levels above the script;
    [orbit_path] is the value of the [--orbit_path] argument, taken as
    given (without the argument the script stops in [os.path.join] with a
    [TypeError]). *)

Definition settings_template_path (ws_dir : str) : str :=
  os_path_join ws_dir [lit ".vscode"; lit "tools"; lit "settings.template.json"].
Definition settings_path (ws_dir : str) : str :=
  os_path_join ws_dir [lit ".vscode"; lit "settings.json"].
Definition launch_path (ws_dir : str) : str :=
  os_path_join ws_dir [lit ".vscode"; lit "launch.json"].
Definition launch_template_path (ws_dir : str) : str :=
  os_path_join ws_dir [lit ".vscode"; lit "tools"; lit "launch.template.json"].

Definition main (ws_dir orbit_path : str) : IO unit :=
  (* settings.json *)
  let* found := os_path_exists (settings_template_path ws_dir) in
  if negb found then
    raise (FileNotFoundError
             (lit "Could not find the orbit template settings file: "
              ++ settings_template_path ws_dir))
  else
    let* settings_template := read_file (settings_template_path ws_dir) in
    let isaacsim_path := os_path_join orbit_path [lit "_isaac_sim"] in
    let* settings :=
      overwrite_python_analysis_extra_paths settings_template isaacsim_path in
    let* settings :=
      lift (overwrite_python_default_interpreter_path settings isaacsim_path) in
    let settings := header_msg (settings_template_path ws_dir) ++ settings in
    let* _ := write_file (settings_path ws_dir) settings in
    (* launch.json *)
    let* found := os_path_exists (launch_path ws_dir) in
    if negb found then
      let* launch_template := read_file (launch_template_path ws_dir) in
      let launch := header_msg (launch_template_path ws_dir) ++ launch_template in
      write_file (launch_path ws_dir) launch
    else ret ().

(** * Vocabulary of the properties *)

(** The text [sep] occurs somewhere in [s]. *)
Fixpoint occurs (sep s : str) : bool :=
  startswith sep s ||
  match s with
  | [] => false
  | _ :: s' => occurs sep s'
  end.

(** A pattern without a star: a character or [None] for a dot. *)
Definition of_simple (k : list (option ascii)) : regex :=
  map (λ o, match o with Some c => RChar c | None => RAny end) k.

(** The star-free pattern [k] matches at the start of [s]. *)
Fixpoint matches_at (dotall : bool) (k : list (option ascii)) (s : str) : bool :=
  match k, s with
  | [], _ => true
  | _ :: _, [] => false
  | Some c :: k', x :: s' => Ascii.eqb x c && matches_at dotall k' s'
  | None :: k', x :: s' => any_ok dotall x && matches_at dotall k' s'
  end.

(** No match of [k] begins at a position inside [pre], in [pre ++ rest]. *)
Fixpoint none_before (dotall : bool) (k : list (option ascii)) (pre rest : str)
    : bool :=
  match pre with
  | [] => true
  | _ :: pre' =>
      negb (matches_at dotall k (pre ++ rest)) && none_before dotall k pre' rest
  end.

(** Putting [k] in front of a match. *)
Definition prepend (k : str) (r : option (str * str)) : option (str * str) :=
  match r with
  | Some (m, rest) => Some (k ++ m, rest)
  | None => None
  end.

(** Putting [pre] in front of the text that precedes a match. *)
Definition shift (pre : str) (r : option (str * str * str))
    : option (str * str * str) :=
  match r with
  | Some (a, m, rest) => Some (pre ++ a, m, rest)
  | None => None
  end.

(** The key pattern of [extra_paths_pattern]: its two dots are unescaped
    and match any character. *)
Definition extra_paths_items : list (option ascii) :=
  Some dq :: (Some <$> lit "python") ++ None :: (Some <$> lit "analysis")
  ++ None :: (Some <$> lit "extraPaths")
  ++ [Some dq; Some ":"%char; Some " "%char; Some "["%char].

Definition rbracket : ascii := "]"%char.

(** [extra_paths_pattern] compiled: the key pattern, [.*?] and the closing
    bracket. *)
Definition extra_paths_regex : regex :=
  of_simple extra_paths_items ++ [RLazyAny; RChar rbracket].

(** The text that [overwrite_python_default_interpreter_path] looks for. *)
Definition interpreter_literal : str :=
  default_python_interpreter_key ++ default_python_interpreter_value.

(** What [os.path.join] puts before the next component. *)
Definition dir_prefix (path : str) : str :=
  if bool_decide (path = []) || endswith ["/"%char] path then path
  else path ++ ["/"%char].

(** The two halves of [main] written out on the world: the launch file,
    and what follows the reading of the settings template. *)
Definition main_launch (ws_dir : str) (w : world) : outcome () * world :=
  match files w !! launch_path ws_dir with
  | Some _ => (Ok (), log (EvExists (launch_path ws_dir)) w)
  | None =>
      match files w !! launch_template_path ws_dir with
      | Some launch_template =>
          (Ok (),
           World (<[launch_path ws_dir :=
                     header_msg (launch_template_path ws_dir) ++ launch_template]>
                    (files w))
             (trace w ++ [EvExists (launch_path ws_dir);
                          EvRead (launch_template_path ws_dir);
                          EvWrite (launch_path ws_dir)
                            (header_msg (launch_template_path ws_dir)
                             ++ launch_template)]))
      | None =>
          (Raise (FileNotFoundErrno (launch_template_path ws_dir)),
           log (EvExists (launch_path ws_dir)) w)
      end
  end.

Definition main_settings (ws_dir orbit_path settings_template : str) (w : world)
    : outcome () * world :=
  let isaacsim_path := os_path_join orbit_path [lit "_isaac_sim"] in
  match overwrite_python_analysis_extra_paths settings_template isaacsim_path w
  with
  | (Ok settings, w2) =>
      match overwrite_python_default_interpreter_path settings isaacsim_path
      with
      | Ok settings =>
          let data := header_msg (settings_template_path ws_dir) ++ settings in
          main_launch ws_dir
            (World (<[settings_path ws_dir := data]> (files w2))
               (trace w2 ++ [EvWrite (settings_path ws_dir) data]))
      | Raise e => (Raise e, w2)
      | NotModelled => (NotModelled, w2)
      end
  | (Raise e, w2) => (Raise e, w2)
  | (NotModelled, w2) => (NotModelled, w2)
  end.

(** An event that reads or writes the file at [path]. *)
Definition accesses (path : str) (e : event) : Prop :=
  match e with
  | EvExists _ => False
  | EvRead p => p = path
  | EvWrite p _ => p = path
  end.

(** A written file is a header naming its template, followed by a body. *)
Definition stamped (ws_dir : str) (e : event) : Prop :=
  match e with
  | EvWrite path data =>
      ∃ src body, data = header_msg src ++ body ∧
        ((path = settings_path ws_dir ∧ src = settings_template_path ws_dir)
         ∨ (path = launch_path ws_dir ∧ src = launch_template_path ws_dir))
  | _ => True
  end.

(** The number of occurrences of [c] in [s]. *)
Definition count_char (c : ascii) (s : str) : nat :=
  length (filter (λ x, x = c) s).

(** The text of a list with the two quoted entries [a] and [b], with any
    white space around them. *)
Definition list_a_b (w1 w2 w3 w4 : str) : str :=
  (w1 ++ dq :: lit "a" ++ dq :: w2) ++ lit ","
  ++ (w3 ++ dq :: lit "b" ++ dq :: w4).

(** White space only. *)
Definition all_space (w : str) : Prop := Forall (λ c, isspace c = true) w.

(** The literal written for the entries [a] and [b] under [/opt/toolkit]. *)
Definition literal_a_b : str :=
  extra_paths_key ++ nl :: lit "        " ++ dq :: lit "/opt/toolkit/a"
  ++ dq :: lit "," ++ nl :: lit "        " ++ dq :: lit "/opt/toolkit/b"
  ++ dq :: nl :: lit "    ]".

(** The literal written for the entries [a] and [b] under a base
    directory. *)
Definition literal_a_b_at (isaac_sim_dir : str) : str :=
  extra_paths_key ++ nl :: lit "        " ++ dq :: isaac_sim_dir ++ lit "/a"
  ++ dq :: lit "," ++ nl :: lit "        " ++ dq :: isaac_sim_dir ++ lit "/b"
  ++ dq :: nl :: lit "    ]".

(** A workspace [/ws] with its two templates and an installation under
    [/opt/orbit] with its settings file; no settings or launch file yet. *)
Definition example_template : str :=
  lit "{" ++ extra_paths_key ++ lit "], " ++ interpreter_literal ++ lit "}".

Definition example_files : gmap str str :=
  <[ lit "/ws/.vscode/tools/settings.template.json" := example_template ]>
  (<[ lit "/ws/.vscode/tools/launch.template.json" := lit "{}" ]>
  (<[ lit "/opt/orbit/_isaac_sim/.vscode/settings.json" :=
        lit "{" ++ extra_paths_key ++ list_a_b [] [] [sp] [] ++ lit "]}" ]>
   ∅)).

Definition example_world : world := World example_files [].

(** A piece of the list text between two commas: white space only, or a
    quoted name with white space around it. *)
Inductive list_piece :=
  | Blank (w : str)
  | Entry (w name w' : str).

Definition piece_text (p : list_piece) : str :=
  match p with
  | Blank w => w
  | Entry w name w' => w ++ dq :: name ++ dq :: w'
  end.

(** The name is not empty, has no comma and neither begins nor ends with a
    double quote. *)
Definition piece_ok (p : list_piece) : Prop :=
  match p with
  | Blank w => all_space w
  | Entry w name w' =>
      all_space w ∧ all_space w' ∧ name ≠ [] ∧ (","%char ∉ name)
      ∧ head name ≠ Some dq ∧ last name ≠ Some dq
  end.

Definition piece_names (p : list_piece) : list str :=
  match p with
  | Blank _ => []
  | Entry _ name _ => [name]
  end.

(** An entry as the script writes it. *)
Definition quoted_path (isaac_sim_dir name : str) : str :=
  dq :: isaac_sim_dir ++ lit "/" ++ name ++ [dq].

(** The text between the key and the closing bracket of the literal that
    is written. *)
Definition extra_paths_inner (isaac_sim_dir settings : str) : str :=
  nl :: lit "        "
  ++ join (lit "," ++ nl :: lit "        ") (path_names isaac_sim_dir settings)
  ++ nl :: lit "    ".

(** * Properties *)

(** ** Strings *)

Lemma startswith_app (p s : str) : startswith p (p ++ s) = true.
Proof.
  induction p as [|a p IH]; [done|]. simpl.
  by rewrite IH, (proj2 (Ascii.eqb_eq a a) eq_refl).
Qed.

Lemma startswith_true (p s : str) :
  startswith p s = true → s = p ++ drop (length p) s.
Proof.
  revert s. induction p as [|a p IH]; intros [|b s] H; simpl in *; try done.
  apply andb_true_iff in H as [Hab H].
  apply Ascii.eqb_eq in Hab as ->. f_equal. by apply IH.
Qed.

Lemma startswith_elem (p s : str) (c : ascii) :
  startswith p s = true → c ∈ p → c ∈ s.
Proof.
  intros H Hc. apply startswith_true in H. rewrite H.
  apply elem_of_app. by left.
Qed.

Lemma occurs_elem (sep s : str) (c : ascii) :
  c ∈ sep → c ∉ s → occurs sep s = false.
Proof.
  intros Hc. induction s as [|x s IH]; intros Hs; simpl.
  - destruct sep; [by apply elem_of_nil in Hc|done].
  - apply not_elem_of_cons in Hs as [Hx Hs].
    rewrite (IH Hs), orb_false_r.
    destruct (startswith sep (x :: s)) eqn:E; [|done].
    exfalso. apply (startswith_elem _ _ c) in E; [|done].
    apply elem_of_cons in E as [->|E]; done.
Qed.

Lemma startswith_snoc (sep x : str) (c : ascii) :
  c ∉ sep → startswith sep (x ++ [c]) = true → startswith sep x = true.
Proof.
  revert x. induction sep as [|a sep IH]; intros x Hc H; [done|].
  apply not_elem_of_cons in Hc as [Hca Hc].
  destruct x as [|b x]; simpl in *.
  - apply andb_true_iff in H as [H _]. by apply Ascii.eqb_eq in H as ->.
  - apply andb_true_iff in H as [-> H]. by apply IH.
Qed.

Lemma occurs_snoc (sep s : str) (c : ascii) :
  sep ≠ [] → c ∉ sep → occurs sep s = false → occurs sep (s ++ [c]) = false.
Proof.
  intros Hsep Hc. induction s as [|x s IH]; intros H.
  - destruct sep as [|a sep]; [done|]. simpl.
    apply not_elem_of_cons in Hc as [Hca _].
    destruct (Ascii.eqb_spec a c) as [->|_]; [done|]. done.
  - simpl in H. apply orb_false_iff in H as [H1 H2].
    cbn [app occurs]. rewrite (IH H2), orb_false_r.
    destruct (startswith sep (x :: s ++ [c])) eqn:E; [|done].
    apply (startswith_snoc sep (x :: s) c Hc) in E. congruence.
Qed.

Lemma split_go_skip (sep k s : str) :
  split_go sep (k ++ s) (length k) = split_go sep s 0.
Proof. induction k as [|x k IH]; [done|]. simpl. apply IH. Qed.

Lemma split_go_no_occurrence (sep s : str) :
  occurs sep s = false → split_go sep s 0 = [s].
Proof.
  induction s as [|x s IH]; [done|]. simpl.
  intros H. apply orb_false_iff in H as [H1 H2].
  change (match sep with [] => true | a :: p' => Ascii.eqb a x && startswith p' s end)
    with (startswith sep (x :: s)).
  rewrite H1, (IH H2). done.
Qed.

(** Splitting where the separator stands first. *)
Lemma split_go_at_sep (sep s : str) :
  sep ≠ [] → split_go sep (sep ++ s) 0 = [] :: split_go sep s 0.
Proof.
  intros Hsep. destruct sep as [|a sep]; [done|].
  pose proof (startswith_app (a :: sep) s) as E.
  simpl in *. rewrite E. rewrite Nat.sub_0_r. by rewrite split_go_skip.
Qed.

(** Splitting on one character. *)
Lemma split_go_char_absent (c : ascii) (s : str) :
  c ∉ s → split_go [c] s 0 = [s].
Proof.
  intros H. apply split_go_no_occurrence, (occurs_elem _ _ c); [|done].
  apply list_elem_of_singleton. done.
Qed.

Lemma split_go_char_first (c : ascii) (a b : str) :
  c ∉ a → split_go [c] (a ++ c :: b) 0 = a :: split_go [c] b 0.
Proof.
  induction a as [|x a IH]; intros H.
  - apply (split_go_at_sep [c] b). done.
  - apply not_elem_of_cons in H as [Hx Ha]. simpl.
    destruct (Ascii.eqb_spec c x) as [->|_]; [done|].
    simpl. rewrite (IH Ha). done.
Qed.

Lemma lstrip_all (f : ascii → bool) (w s : str) :
  Forall (λ c, f c = true) w → lstrip f (w ++ s) = lstrip f s.
Proof.
  induction 1 as [|c w Hc _ IH]; [done|]. simpl. by rewrite Hc.
Qed.

Lemma rstrip_all (f : ascii → bool) (w s : str) :
  Forall (λ c, f c = true) w → rstrip f (s ++ w) = rstrip f s.
Proof.
  intros H. unfold rstrip. rewrite rev_app_distr, lstrip_all; [done|].
  rewrite Forall_forall in *. intros c Hc. apply H.
  rewrite list_elem_of_In in *. by apply in_rev.
Qed.

Lemma rstrip_stop (f : ascii → bool) (s : str) (c : ascii) :
  f c = false → rstrip f (s ++ [c]) = s ++ [c].
Proof.
  intros H. unfold rstrip. rewrite rev_app_distr. simpl. rewrite H.
  change (c :: rev s) with (rev [c] ++ rev s).
  by rewrite <- rev_app_distr, rev_involutive.
Qed.

(** ** Replacement templates *)

(** A replacement without a backslash stands for itself. *)
Lemma parse_template_plain (s : str) :
  bslash ∉ s → parse_template s MText = Ok (TChar <$> s).
Proof.
  induction s as [|c s IH]; intros H; [done|].
  apply not_elem_of_cons in H as [Hc Hs].
  cbn [parse_template].
  destruct (Ascii.eqb_spec c bslash) as [->|_]; [done|].
  cbn [negb]. rewrite (IH Hs). done.
Qed.

Lemma expand_template_plain (s m : str) : expand_template (TChar <$> s) m = s.
Proof. induction s as [|c s IH]; [done|]. simpl. by f_equal. Qed.

(** ** The matcher *)

Lemma consume_prepend (c : ascii) (k : str) (r : option (str * str)) :
  consume c (prepend k r) = prepend (c :: k) r.
Proof. by destruct r as [[? ?]|]. Qed.

Lemma match_here_lazy (dotall : bool) (p : regex) (s : str) (adv : bool) :
  match_here dotall (RLazyAny :: p) s adv =
  match match_here dotall p s adv with
  | Some r => Some r
  | None =>
      match s with
      | x :: s' =>
          if any_ok dotall x
          then consume x (match_here dotall (RLazyAny :: p) s' false)
          else None
      | [] => None
      end
  end.
Proof. destruct s; reflexivity. Qed.

Lemma match_here_char (dotall : bool) (c : ascii) (p : regex) (x : ascii)
    (s : str) (adv : bool) :
  match_here dotall (RChar c :: p) (x :: s) adv =
  if Ascii.eqb x c then consume x (match_here dotall p s false) else None.
Proof. reflexivity. Qed.

Lemma match_here_simple (dotall : bool) (k : list (option ascii)) (p : regex)
    (s : str) (adv : bool) :
  k ≠ [] →
  match_here dotall (of_simple k ++ p) s adv =
  if matches_at dotall k s
  then prepend (take (length k) s)
               (match_here dotall p (drop (length k) s) false)
  else None.
Proof.
  intros Hk. revert s adv. induction k as [|o k IH]; [done|]. clear Hk.
  intros s adv. destruct s as [|x s]; [by destruct o|].
  assert (consume x (match_here dotall (of_simple k ++ p) s false) =
          if matches_at dotall k s
          then prepend (x :: take (length k) s)
                 (match_here dotall p (drop (length k) s) false)
          else None) as Hrec.
  { destruct k as [|o' k'].
    - simpl. rewrite take_0, drop_0.
      by destruct (match_here dotall p s false) as [[? ?]|].
    - rewrite IH by done. destruct (matches_at dotall (o' :: k') s); [|done].
      apply consume_prepend. }
  destruct o as [c|]; simpl.
  - destruct (Ascii.eqb x c); [apply Hrec|done].
  - destruct (any_ok dotall x); [apply Hrec|done].
Qed.

(** A literal pattern matches exactly its own text. *)
Lemma matches_at_literal (dotall : bool) (l s : str) :
  matches_at dotall (Some <$> l) s = startswith l s.
Proof.
  revert s. induction l as [|a l IH]; intros [|x s]; simpl; try done.
  rewrite IH. f_equal. apply Ascii.eqb_sym.
Qed.

(** The lazy star followed by a character stops at the first occurrence of
    that character. *)
Lemma match_here_lazy_char (c : ascii) (body rest : str) (adv : bool) :
  c ∉ body →
  match_here true [RLazyAny; RChar c] (body ++ c :: rest) adv
  = Some (body ++ [c], rest).
Proof.
  revert adv. induction body as [|x body IH]; intros adv H.
  - rewrite match_here_lazy. simpl.
    by rewrite (proj2 (Ascii.eqb_eq c c) eq_refl).
  - apply not_elem_of_cons in H as [Hx Hb].
    rewrite match_here_lazy.
    change ((x :: body) ++ c :: rest) with (x :: (body ++ c :: rest)).
    rewrite match_here_char.
    destruct (Ascii.eqb_spec x c) as [->|_]; [done|].
    change (any_ok true x) with true. cbv iota.
    by rewrite (IH false Hb).
Qed.

Lemma match_here_lazy_none (c : ascii) (s : str) (adv : bool) :
  c ∉ s → match_here true [RLazyAny; RChar c] s adv = None.
Proof.
  revert adv. induction s as [|x s IH]; intros adv H.
  - by rewrite match_here_lazy.
  - apply not_elem_of_cons in H as [Hx Hs].
    rewrite match_here_lazy.
    assert (match_here true [RChar c] (x :: s) adv = None) as ->.
    { rewrite match_here_char. by destruct (Ascii.eqb_spec x c) as [->|_]. }
    change (any_ok true x) with true. cbv iota.
    by rewrite (IH false Hs).
Qed.

Lemma match_here_split (dotall : bool) (p : regex) (s : str) (adv : bool)
    (m rest : str) :
  match_here dotall p s adv = Some (m, rest) →
  s = m ++ rest ∧ (adv = true → m ≠ []).
Proof.
  revert s adv m rest. induction p as [|i p IH]; intros s adv m rest H.
  - simpl in H. destruct adv; [done|]. by injection H as <- <-.
  - assert (∀ x s', consume x (match_here dotall p s' false) = Some (m, rest) →
                    x :: s' = m ++ rest ∧ (adv = true → m ≠ [])) as Hstep.
    { intros x s' Hc.
      destruct (match_here dotall p s' false) as [[m' r']|] eqn:E; [|done].
      injection Hc as <- <-. apply IH in E as [-> _]. done. }
    destruct i.
    + destruct s as [|x s]; [done|]. rewrite match_here_char in H.
      destruct (Ascii.eqb x c); [by apply Hstep|done].
    + destruct s as [|x s]; [done|]. simpl in H.
      destruct (any_ok dotall x); [by apply Hstep|done].
    + clear Hstep. revert adv m rest H.
      induction s as [|x s IHs]; intros adv m rest H;
        rewrite match_here_lazy in H;
        destruct (match_here dotall p _ adv) as [[m' r']|] eqn:E;
        try (injection H as <- <-; by apply IH in E); [done|].
      destruct (any_ok dotall x); [|done].
      destruct (match_here dotall (RLazyAny :: p) s false) as [[m' r']|] eqn:E';
        [|done].
      injection H as <- <-.
      apply IHs in E' as [-> _]. done.
Qed.

Lemma search_from_found (dotall : bool) (p : regex) (s : str) (adv : bool)
    (m rest : str) :
  match_here dotall p s adv = Some (m, rest) →
  search_from dotall p s adv = Some ([], m, rest).
Proof. intros H. destruct s; simpl; by rewrite H. Qed.

Lemma search_from_split (dotall : bool) (p : regex) (s : str) (adv : bool)
    (pre m rest : str) :
  search_from dotall p s adv = Some (pre, m, rest) →
  s = pre ++ m ++ rest ∧ (adv = true → pre = [] → m ≠ []).
Proof.
  assert (∀ s' m' r', match_here dotall p s' adv = Some (m', r') →
            Some ([], m', r') = Some (pre, m, rest) →
            s' = pre ++ m ++ rest ∧ (adv = true → pre = [] → m ≠ [])) as Hhere.
  { intros s' m' r' E [= <- <- <-]. apply match_here_split in E as [-> E].
    split; [done|]. intros Ha _. by apply E. }
  revert adv pre Hhere. induction s as [|x s IH]; intros adv pre Hhere H;
    simpl in H;
    destruct (match_here dotall p _ adv) as [[m' r']|] eqn:E;
    try (by apply (Hhere _ _ _ E)); [done|].
  destruct (search_from dotall p s false) as [[[a m'] r']|] eqn:E'; [|done].
  injection H as <- <- <-. apply IH in E' as [-> _]; [done|].
  intros s' m'' r'' E1 [= <- <- <-]. apply match_here_split in E1 as [-> _].
  done.
Qed.

(** A pattern that begins with a star-free part cannot match the empty
    string, so [must_advance] makes no difference to it. *)
Lemma match_here_simple_adv (dotall : bool) (k : list (option ascii))
    (p : regex) (s : str) (adv : bool) :
  k ≠ [] →
  match_here dotall (of_simple k ++ p) s adv
  = match_here dotall (of_simple k ++ p) s false.
Proof. intros Hk. by rewrite !match_here_simple. Qed.

Lemma search_from_simple_adv (dotall : bool) (k : list (option ascii))
    (p : regex) (s : str) (adv : bool) :
  k ≠ [] →
  search_from dotall (of_simple k ++ p) s adv
  = search_from dotall (of_simple k ++ p) s false.
Proof.
  intros Hk. destruct s; simpl; by rewrite (match_here_simple_adv _ _ _ _ adv).
Qed.

Lemma search_from_skip (dotall : bool) (k : list (option ascii)) (p : regex)
    (pre rest : str) :
  k ≠ [] →
  none_before dotall k pre rest = true →
  search_from dotall (of_simple k ++ p) (pre ++ rest) false
  = shift pre (search_from dotall (of_simple k ++ p) rest false).
Proof.
  intros Hk. induction pre as [|x pre IH]; intros H.
  - simpl. by destruct (search_from _ _ rest false) as [[[? ?] ?]|].
  - simpl in H. apply andb_true_iff in H as [H1 H2].
    apply negb_true_iff in H1.
    change ((x :: pre) ++ rest) with (x :: (pre ++ rest)) in *.
    unfold search_from at 1; fold search_from.
    rewrite match_here_simple, H1 by done.
    rewrite (IH H2).
    by destruct (search_from _ _ rest false) as [[[? ?] ?]|].
Qed.

Lemma search_from_none (dotall : bool) (k : list (option ascii)) (p : regex)
    (s : str) (adv : bool) :
  k ≠ [] →
  none_before dotall k s [] = true →
  search_from dotall (of_simple k ++ p) s adv = None.
Proof.
  intros Hk H. rewrite search_from_simple_adv by done.
  pose proof (search_from_skip dotall k p s [] Hk H) as E.
  rewrite app_nil_r in E. rewrite E.
  simpl. rewrite match_here_simple by done. by destruct k as [|[?|] ?].
Qed.

(** ** The substitution loop *)

Lemma sub_loop_mono (dotall : bool) (p : regex) (t : list tpl_item)
    (n n' : nat) (s : str) (adv : bool) (r : str) :
  sub_loop n dotall p t s adv = Some r → n ≤ n' →
  sub_loop n' dotall p t s adv = Some r.
Proof.
  revert n' s adv r. induction n as [|n IH]; intros n' s adv r H Hn; [done|].
  destruct n' as [|n']; [lia|]. simpl in *.
  destruct (search_from dotall p s adv) as [[[pre m] rest]|]; [|done].
  destruct (sub_loop n dotall p t rest _) as [r'|] eqn:E; [|done].
  rewrite (IH n' _ _ _ E); [done|lia].
Qed.

Lemma sub_loop_total (dotall : bool) (p : regex) (t : list tpl_item)
    (n : nat) (s : str) (adv : bool) :
  2 * length s + (if adv then 1 else 2) ≤ n →
  is_Some (sub_loop n dotall p t s adv).
Proof.
  revert s adv. induction n as [|n IH]; intros s adv Hn.
  { destruct adv; lia. }
  simpl. destruct (search_from dotall p s adv) as [[[pre m] rest]|] eqn:E;
    [|done].
  apply search_from_split in E as [-> Hadv].
  rewrite !length_app in Hn.
  destruct (IH rest (bool_decide (m = []))) as [r Hr].
  { case_bool_decide as Hm.
    - subst m. destruct adv; [|simpl in *; lia].
      destruct pre; [by destruct Hadv|simpl in *; lia].
    - destruct m; [done|]. destruct adv; simpl in *; lia. }
  rewrite Hr. done.
Qed.

Section re_sub.
Context (pattern repl : str) (dotall : bool) (p : regex) (t : list tpl_item).
Hypothesis Hpattern : re_parse pattern = Some p.
Hypothesis Hrepl : parse_template repl MText = Ok t.

(** [re.sub] returns. *)
Lemma re_sub_total (s : str) : ∃ r, re_sub pattern repl s dotall = Ok r.
Proof using Hpattern Hrepl.
  unfold re_sub. rewrite Hpattern, Hrepl. cbn [obind].
  destruct (sub_loop_total dotall p t (2 * length s + 2) s false) as [r ->];
    [lia|]. by exists r.
Qed.

(** Without a match the string is returned as it is. *)
Lemma re_sub_no_match (s : str) :
  search_from dotall p s false = None →
  re_sub pattern repl s dotall = Ok s.
Proof using Hpattern Hrepl.
  intros H. unfold re_sub. rewrite Hpattern, Hrepl. cbn [obind].
  replace (2 * length s + 2) with (S (2 * length s + 1)) by lia.
  cbn [sub_loop]. by rewrite H.
Qed.

(** The leftmost match is replaced and the rest of the string is rewritten
    in the same way. *)
Lemma re_sub_first (s pre m rest r : str) :
  search_from dotall p s false = Some (pre, m, rest) →
  m ≠ [] →
  re_sub pattern repl rest dotall = Ok r →
  re_sub pattern repl s dotall = Ok (pre ++ expand_template t m ++ r).
Proof using Hpattern Hrepl.
  intros H Hm. unfold re_sub. rewrite Hpattern, Hrepl. cbn [obind].
  destruct (sub_loop _ _ _ _ rest false) as [r'|] eqn:E; [|done].
  intros [= <-].
  replace (2 * length s + 2) with (S (2 * length s + 1)) by lia.
  cbn [sub_loop]. rewrite H. rewrite bool_decide_false by done.
  rewrite (sub_loop_mono _ _ _ _ (2 * length s + 1) _ _ _ E); [done|].
  apply search_from_split in H as [-> _]. rewrite !length_app.
  destruct m; [done|]. simpl. lia.
Qed.
End re_sub.

(** A rejected template raises, whatever the string. *)
Lemma re_sub_template_error (pattern repl s : str) (dotall : bool) (p : regex) :
  re_parse pattern = Some p →
  parse_template repl MText = Raise TemplateError →
  re_sub pattern repl s dotall = Raise TemplateError.
Proof. intros H1 H2. unfold re_sub. by rewrite H1, H2. Qed.

Lemma matches_at_app_long (dotall : bool) (k : list (option ascii))
    (s more : str) :
  length k ≤ length s →
  matches_at dotall k (s ++ more) = matches_at dotall k s.
Proof.
  revert s. induction k as [|o k IH]; intros [|x s] H; simpl in *;
    [done|done|lia|].
  rewrite IH by lia. done.
Qed.

Lemma none_before_app (dotall : bool) (k : list (option ascii))
    (pre key more : str) :
  length k ≤ length key →
  none_before dotall k pre (key ++ more) = none_before dotall k pre key.
Proof.
  intros H. induction pre as [|x pre IH]; [done|].
  cbn [none_before]. rewrite IH. f_equal. f_equal.
  rewrite (app_assoc (x :: pre) key more).
  apply matches_at_app_long. rewrite length_app. lia.
Qed.

(** A literal pattern: the match is the literal itself. *)
Lemma match_here_literal (dotall : bool) (l s : str) (adv : bool) :
  l ≠ [] →
  match_here dotall (of_simple (Some <$> l) ++ []) s adv
  = if startswith l s then Some (l, drop (length l) s) else None.
Proof.
  intros Hl. rewrite match_here_simple by by destruct l.
  rewrite matches_at_literal, length_fmap.
  destruct (startswith l s) eqn:E; [|done].
  apply startswith_true in E. rewrite E at 1.
  rewrite take_app_length. simpl. by rewrite app_nil_r.
Qed.

Lemma search_from_literal_exists (dotall : bool) (l pre post : str) :
  l ≠ [] →
  ∃ a b, search_from dotall (of_simple (Some <$> l) ++ []) (pre ++ l ++ post)
           false = Some (a, l, b).
Proof.
  intros Hl. induction pre as [|x pre (a & b & IH)].
  - exists [], post. apply search_from_found.
    change ([] ++ l ++ post) with (l ++ post).
    rewrite match_here_literal, startswith_app by done.
    by rewrite drop_app_length.
  - change ((x :: pre) ++ l ++ post) with (x :: (pre ++ l ++ post)).
    unfold search_from; fold search_from.
    rewrite match_here_literal by done.
    destruct (startswith l _); [by eexists _, _|].
    rewrite IH. by eexists _, _.
Qed.

(** ** The two patterns of the script *)

Lemma extra_paths_pattern_compiled :
  re_parse extra_paths_pattern = Some extra_paths_regex.
Proof. reflexivity. Qed.

Lemma extra_paths_key_matches :
  matches_at true extra_paths_items extra_paths_key = true
  ∧ length extra_paths_key = length extra_paths_items.
Proof. split; reflexivity. Qed.

(** [re.escape] turns a string into a pattern that matches it literally. *)
Lemma re_parse_escape (s : str) :
  re_parse (re_escape s) = Some (of_simple (Some <$> s)).
Proof.
  induction s as [|c s IH]; [done|].
  transitivity (cons (RChar c) <$> re_parse (re_escape s)).
  - change (re_escape (c :: s))
      with ((if is_special c then [bslash; c] else [c]) ++ re_escape s).
    generalize (re_escape s). intros e.
    destruct c as [[] [] [] [] [] [] [] []]; reflexivity.
  - rewrite IH. done.
Qed.

(** The text matched by the extra-paths pattern at the start of
    [key ++ body ++ "]" ++ rest]: up to the first closing bracket. *)
Lemma match_here_region (key body rest : str) (adv : bool) :
  matches_at true extra_paths_items key = true →
  length key = length extra_paths_items →
  rbracket ∉ body →
  match_here true extra_paths_regex (key ++ body ++ rbracket :: rest) adv
  = Some (key ++ body ++ [rbracket], rest).
Proof.
  intros Hk Hlen Hb. unfold extra_paths_regex.
  rewrite match_here_simple by done.
  rewrite matches_at_app_long, Hk by lia.
  rewrite <- Hlen, take_app_length, drop_app_length.
  by rewrite match_here_lazy_char.
Qed.

Lemma search_from_region (pre key body rest : str) :
  matches_at true extra_paths_items key = true →
  length key = length extra_paths_items →
  none_before true extra_paths_items pre key = true →
  rbracket ∉ body →
  search_from true extra_paths_regex (pre ++ key ++ body ++ rbracket :: rest)
    false
  = Some (pre, key ++ body ++ [rbracket], rest).
Proof.
  intros Hk Hlen Hpre Hb. unfold extra_paths_regex.
  rewrite search_from_skip; [|done|by rewrite none_before_app by lia].
  fold extra_paths_regex.
  rewrite (search_from_found _ _ _ _ _ _ (match_here_region _ _ _ _ Hk Hlen Hb)).
  simpl. by rewrite app_nil_r.
Qed.

(** ** Running overwrite_python_analysis_extra_paths *)

Lemma extra_paths_run (ws_settings isaac_sim_dir sec : str) (w : world) :
  files w !! isaacsim_vscode_filename isaac_sim_dir = Some sec →
  overwrite_python_analysis_extra_paths ws_settings isaac_sim_dir w
  = (obind (extract_settings sec) (λ settings,
       re_sub extra_paths_pattern
         (extra_paths_literal isaac_sim_dir settings) ws_settings true),
     World (files w)
       (trace w ++ [EvExists (isaacsim_vscode_filename isaac_sim_dir);
                    EvRead (isaacsim_vscode_filename isaac_sim_dir)])).
Proof.
  intros H. unfold overwrite_python_analysis_extra_paths, bind, os_path_exists,
    read_file, lift, log. simpl. rewrite H.
  rewrite bool_decide_true by done. simpl. rewrite H.
  rewrite <- app_assoc. simpl.
  by destruct (extract_settings sec).
Qed.

Lemma extra_paths_missing (ws_settings isaac_sim_dir : str) (w : world) :
  files w !! isaacsim_vscode_filename isaac_sim_dir = None →
  overwrite_python_analysis_extra_paths ws_settings isaac_sim_dir w
  = (Raise (FileNotFoundError
              (lit "Could not find the isaac-sim settings file: "
               ++ isaacsim_vscode_filename isaac_sim_dir)),
     World (files w)
       (trace w ++ [EvExists (isaacsim_vscode_filename isaac_sim_dir)])).
Proof.
  intros H. unfold overwrite_python_analysis_extra_paths, bind, os_path_exists,
    raise, log. simpl. rewrite H.
  rewrite bool_decide_false by (by intros [? ?]). done.
Qed.

(** The extraction of lines 76 to 79 on a file whose first match of the
    pattern starts with the key as the script spells it. *)
Lemma extract_settings_region (pre body rest : str) :
  none_before true extra_paths_items pre extra_paths_key = true →
  rbracket ∉ body →
  occurs extra_paths_key body = false →
  extract_settings (pre ++ extra_paths_key ++ body ++ rbracket :: rest)
  = Ok body.
Proof.
  intros Hpre Hb Hocc. unfold extract_settings, re_search_group0.
  rewrite extra_paths_pattern_compiled.
  destruct extra_paths_key_matches as [Hk Hlen].
  rewrite search_from_region by done.
  cbn [obind str_split extra_paths_key].
  fold extra_paths_key.
  rewrite (split_go_at_sep extra_paths_key) by done.
  rewrite split_go_no_occurrence.
  - cbn [List.last]. change (lit "]") with [rbracket].
    cbn [str_split obind]. rewrite split_go_char_first by done. done.
  - change (body ++ [rbracket]) with (body ++ [rbracket]).
    apply occurs_snoc; [done| |done].
    apply (bool_decide_unpack _). by vm_compute.
Qed.

(** ** Paths *)

Lemma os_path_join2_relative (path b : str) :
  startswith ["/"%char] b = false →
  os_path_join2 path b = dir_prefix path ++ b.
Proof.
  intros H. unfold os_path_join2, dir_prefix. rewrite H.
  destruct (_ || _); [done|]. by rewrite <- app_assoc.
Qed.

Lemma dir_prefix_after_name (path name : str) (c : ascii) :
  c ≠ "/"%char →
  dir_prefix (path ++ name ++ [c]) = path ++ name ++ [c; "/"%char].
Proof.
  intros Hc. unfold dir_prefix, endswith.
  rewrite bool_decide_false.
  2:{ intros E. apply (f_equal length) in E.
      rewrite !length_app in E. simpl in E. lia. }
  rewrite !app_assoc, rev_app_distr. cbn -[Ascii.eqb].
  destruct (Ascii.eqb_spec "/"%char c) as [<-|_]; [done|].
  by rewrite <- !app_assoc.
Qed.

Lemma settings_path_eq (ws_dir : str) :
  settings_path ws_dir
  = dir_prefix (os_path_join2 ws_dir (lit ".vscode")) ++ lit "settings.json".
Proof.
  unfold settings_path, os_path_join. cbn [foldl].
  by rewrite (os_path_join2_relative _ (lit "settings.json")).
Qed.

Lemma launch_path_eq (ws_dir : str) :
  launch_path ws_dir
  = dir_prefix (os_path_join2 ws_dir (lit ".vscode")) ++ lit "launch.json".
Proof.
  unfold launch_path, os_path_join. cbn [foldl].
  by rewrite (os_path_join2_relative _ (lit "launch.json")).
Qed.

Lemma settings_template_path_eq (ws_dir : str) :
  settings_template_path ws_dir
  = dir_prefix (os_path_join2 ws_dir (lit ".vscode"))
    ++ lit "tools/settings.template.json".
Proof.
  unfold settings_template_path, os_path_join. cbn [foldl].
  rewrite (os_path_join2_relative _ (lit "settings.template.json")) by done.
  rewrite (os_path_join2_relative _ (lit "tools")) by done.
  rewrite (dir_prefix_after_name _ (lit "tool") "s"%char) by done.
  by rewrite <- app_assoc.
Qed.

Lemma launch_template_path_eq (ws_dir : str) :
  launch_template_path ws_dir
  = dir_prefix (os_path_join2 ws_dir (lit ".vscode"))
    ++ lit "tools/launch.template.json".
Proof.
  unfold launch_template_path, os_path_join. cbn [foldl].
  rewrite (os_path_join2_relative _ (lit "launch.template.json")) by done.
  rewrite (os_path_join2_relative _ (lit "tools")) by done.
  rewrite (dir_prefix_after_name _ (lit "tool") "s"%char) by done.
  by rewrite <- app_assoc.
Qed.

Lemma isaacsim_vscode_filename_eq (isaac_sim_dir : str) :
  isaacsim_vscode_filename isaac_sim_dir
  = dir_prefix (os_path_join2 isaac_sim_dir (lit ".vscode"))
    ++ lit "settings.json".
Proof.
  unfold isaacsim_vscode_filename, os_path_join. cbn [foldl].
  by rewrite (os_path_join2_relative _ (lit "settings.json")).
Qed.

Lemma launch_path_ne_settings_path (ws_dir : str) :
  launch_path ws_dir ≠ settings_path ws_dir.
Proof.
  rewrite launch_path_eq, settings_path_eq. intros E.
  by apply app_inv_head in E.
Qed.

Lemma launch_path_ne_settings_template_path (ws_dir : str) :
  launch_path ws_dir ≠ settings_template_path ws_dir.
Proof.
  rewrite launch_path_eq, settings_template_path_eq. intros E.
  by apply app_inv_head in E.
Qed.

Lemma launch_path_ne_isaacsim_vscode_filename (ws_dir isaac_sim_dir : str) :
  launch_path ws_dir ≠ isaacsim_vscode_filename isaac_sim_dir.
Proof.
  rewrite launch_path_eq, isaacsim_vscode_filename_eq. intros E.
  apply (f_equal (λ l : str, rev l)) in E. rewrite !rev_app_distr in E.
  by simpl in E.
Qed.

(** ** Running main *)

(** The file system after [overwrite_python_analysis_extra_paths]: nothing
    is written; the only file looked at is the isaac-sim settings file. *)
Lemma extra_paths_world (ws_settings isaac_sim_dir : str) (w : world) :
  ∃ evs,
    snd (overwrite_python_analysis_extra_paths ws_settings isaac_sim_dir w)
    = World (files w) (trace w ++ evs)
    ∧ (evs = [EvExists (isaacsim_vscode_filename isaac_sim_dir)]
       ∨ evs = [EvExists (isaacsim_vscode_filename isaac_sim_dir);
                EvRead (isaacsim_vscode_filename isaac_sim_dir)]).
Proof.
  destruct (files w !! isaacsim_vscode_filename isaac_sim_dir) as [sec|] eqn:E.
  - rewrite (extra_paths_run _ _ _ _ E). eauto.
  - rewrite (extra_paths_missing _ _ _ E). eauto.
Qed.

(** [main] checks for the settings template, reads it and goes on with
    [main_settings]. *)
Lemma main_unfold (ws_dir orbit_path : str) (w : world) :
  main ws_dir orbit_path w =
  match files w !! settings_template_path ws_dir with
  | None =>
      (Raise (FileNotFoundError
                (lit "Could not find the orbit template settings file: "
                 ++ settings_template_path ws_dir)),
       log (EvExists (settings_template_path ws_dir)) w)
  | Some settings_template =>
      main_settings ws_dir orbit_path settings_template
        (World (files w)
           (trace w ++ [EvExists (settings_template_path ws_dir);
                        EvRead (settings_template_path ws_dir)]))
  end.
Proof.
  unfold main, bind at 1, os_path_exists.
  destruct (files w !! settings_template_path ws_dir) as [tpl|] eqn:E.
  - rewrite bool_decide_true by done. cbn [negb].
    unfold bind at 1, read_file, log. cbn [files trace]. rewrite E.
    rewrite <- app_assoc. cbn [app].
    unfold main_settings, bind at 1.
    destruct (overwrite_python_analysis_extra_paths _ _ _) as [[settings| |] w2];
      [|done..].
    unfold bind at 1, lift.
    destruct (overwrite_python_default_interpreter_path _ _) as [settings'| |];
      [|done..].
    unfold bind at 1, write_file. unfold bind at 1.
    unfold main_launch, log. cbn [files trace].
    destruct (_ !! launch_path ws_dir) as [l|] eqn:El.
    + rewrite bool_decide_true by done. done.
    + rewrite bool_decide_false by (by intros [? ?]). cbn [negb].
      unfold bind, write_file. cbn [files trace].
      destruct (_ !! launch_template_path ws_dir) as [lt|] eqn:Et.
      * cbn [files trace]. rewrite <- !app_assoc. done.
      * done.
  - rewrite bool_decide_false by (by intros [? ?]). done.
Qed.

(** [main] after the template has been read: either it stops before
    anything is written, or it writes the settings file and goes on to the
    launch file. *)
Lemma main_settings_cases (ws_dir orbit_path settings_template : str)
    (w : world) :
  let filename :=
    isaacsim_vscode_filename (os_path_join orbit_path [lit "_isaac_sim"]) in
  ∃ evs, Forall (λ e, e = EvExists filename ∨ e = EvRead filename) evs ∧
    ((∃ o, main_settings ws_dir orbit_path settings_template w
           = (o, World (files w) (trace w ++ evs)) ∧ o ≠ Ok ())
     ∨ (∃ settings,
          let data := header_msg (settings_template_path ws_dir) ++ settings in
          main_settings ws_dir orbit_path settings_template w
          = main_launch ws_dir
              (World (<[settings_path ws_dir := data]> (files w))
                 (trace w ++ evs ++ [EvWrite (settings_path ws_dir) data])))).
Proof.
  intros filename. unfold main_settings.
  destruct (extra_paths_world settings_template
              (os_path_join orbit_path [lit "_isaac_sim"]) w)
    as (evs & Hw & Hevs).
  exists evs. split.
  { fold filename in Hevs.
    destruct Hevs as [-> | ->];
      repeat (apply Forall_cons_2; [by auto|]); apply Forall_nil_2. }
  destruct (overwrite_python_analysis_extra_paths _ _ w) as [o w2].
  simpl in Hw. subst w2.
  destruct o as [settings|e|]; [|left; by eexists..].
  destruct (overwrite_python_default_interpreter_path _ _) as [settings'|e|];
    [|left; by eexists..].
  right. exists settings'. cbn [files trace]. by rewrite <- app_assoc.
Qed.

Lemma main_keeps_launch (ws_dir orbit_path : str) (w : world) :
  is_Some (files w !! launch_path ws_dir) →
  files (snd (main ws_dir orbit_path w)) !! launch_path ws_dir
  = files w !! launch_path ws_dir
  ∧ ∃ evs, trace (snd (main ws_dir orbit_path w)) = trace w ++ evs
           ∧ Forall (λ e, ¬ accesses (launch_path ws_dir) e) evs.
Proof.
  intros [l Hl]. rewrite main_unfold.
  pose proof (launch_path_ne_settings_path ws_dir) as Hsp.
  pose proof (launch_path_ne_settings_template_path ws_dir) as Htp.
  pose proof (launch_path_ne_isaacsim_vscode_filename ws_dir
                (os_path_join orbit_path [lit "_isaac_sim"])) as Hfn.
  destruct (files w !! settings_template_path ws_dir) as [tpl|].
  - destruct (main_settings_cases ws_dir orbit_path tpl
                (World (files w)
                   (trace w ++ [EvExists (settings_template_path ws_dir);
                                EvRead (settings_template_path ws_dir)])))
      as (evs & Hevs & [(o & -> & _) | (settings & ->)]).
    + cbn [snd files trace]. split; [done|].
      eexists. split; [by rewrite <- app_assoc|].
      apply Forall_app. split.
      * repeat (apply Forall_cons_2; [simpl; by auto|]). apply Forall_nil_2.
      * eapply Forall_impl; [exact Hevs|].
        intros e [-> | ->]; simpl; by auto.
    + cbv zeta. unfold main_launch. cbn [files trace].
      rewrite lookup_insert_ne, Hl by done.
      cbn [snd log files trace]. rewrite lookup_insert_ne, Hl by done.
      split; [done|].
      eexists. split; [by rewrite <- !app_assoc|].
      apply Forall_app. split.
      { repeat (apply Forall_cons_2; [simpl; by auto|]). apply Forall_nil_2. }
      apply Forall_app. split.
      { eapply Forall_impl; [exact Hevs|].
        intros e [-> | ->]; simpl; by auto. }
      repeat (apply Forall_cons_2; [simpl; by auto|]). apply Forall_nil_2.
  - cbn [snd log files trace]. split; [done|].
    eexists. split; [done|].
    repeat (apply Forall_cons_2; [simpl; by auto|]). apply Forall_nil_2.
Qed.

(** ** The claims *)

(** C2. When the isaac-sim settings file, [.vscode/settings.json] under the
    base directory, does not exist, [overwrite_python_analysis_extra_paths]
    raises [FileNotFoundError] with a message that ends with the expected
    path, having done nothing but the existence check. A run of [main] whose
    base directory has no such file raises [FileNotFoundError] (for the
    workspace template when that is missing too, else for the isaac-sim
    settings file), leaves every file as it was and writes nothing. *)
Theorem missing_secondary_settings
    (ws_settings isaac_sim_dir ws_dir orbit_path : str) (w : world) :
  files w !! isaacsim_vscode_filename isaac_sim_dir = None →
  files w !! isaacsim_vscode_filename
               (os_path_join orbit_path [lit "_isaac_sim"]) = None →
  overwrite_python_analysis_extra_paths ws_settings isaac_sim_dir w
  = (Raise (FileNotFoundError
              (lit "Could not find the isaac-sim settings file: "
               ++ isaacsim_vscode_filename isaac_sim_dir)),
     World (files w)
       (trace w ++ [EvExists (isaacsim_vscode_filename isaac_sim_dir)]))
  ∧ ∃ evs,
      main ws_dir orbit_path w
      = (Raise (FileNotFoundError
                  match files w !! settings_template_path ws_dir with
                  | Some _ =>
                      lit "Could not find the isaac-sim settings file: "
                      ++ isaacsim_vscode_filename
                           (os_path_join orbit_path [lit "_isaac_sim"])
                  | None =>
                      lit "Could not find the orbit template settings file: "
                      ++ settings_template_path ws_dir
                  end),
         World (files w) (trace w ++ evs))
      ∧ ∀ path data, EvWrite path data ∉ evs.
Proof.
  intros H Hmain. split; [by apply extra_paths_missing|].
  rewrite main_unfold.
  destruct (files w !! settings_template_path ws_dir) as [tpl|].
  - unfold main_settings. rewrite extra_paths_missing by done.
    cbn [files trace]. rewrite <- app_assoc.
    eexists. split; [done|].
    intros path data Hin.
    repeat (apply elem_of_cons in Hin as [Hin|Hin]; [done|]).
    by apply elem_of_nil in Hin.
  - unfold log. eexists. split; [done|].
    intros path data Hin.
    repeat (apply elem_of_cons in Hin as [Hin|Hin]; [done|]).
    by apply elem_of_nil in Hin.
Qed.

(** A workspace with its settings template and no isaac-sim settings file
    anywhere. *)
Lemma missing_secondary_settings_witness :
  let w := World {[ lit "/ws/.vscode/tools/settings.template.json" :=
                      lit "{}" ]} [] in
  overwrite_python_analysis_extra_paths (lit "{}") (lit "/opt/toolkit") w
  = (Raise (FileNotFoundError
              (lit "Could not find the isaac-sim settings file: "
               ++ isaacsim_vscode_filename (lit "/opt/toolkit"))),
     World (files w)
       (trace w ++ [EvExists (isaacsim_vscode_filename (lit "/opt/toolkit"))]))
  ∧ ∃ evs,
      main (lit "/ws") (lit "/opt/orbit") w
      = (Raise (FileNotFoundError
                  match files w !! settings_template_path (lit "/ws") with
                  | Some _ =>
                      lit "Could not find the isaac-sim settings file: "
                      ++ isaacsim_vscode_filename
                           (os_path_join (lit "/opt/orbit") [lit "_isaac_sim"])
                  | None =>
                      lit "Could not find the orbit template settings file: "
                      ++ settings_template_path (lit "/ws")
                  end),
         World (files w) (trace w ++ evs))
      ∧ ∀ path data, EvWrite path data ∉ evs.
Proof.
  apply (missing_secondary_settings (lit "{}") (lit "/opt/toolkit")
           (lit "/ws") (lit "/opt/orbit")
           (World {[ lit "/ws/.vscode/tools/settings.template.json" :=
                       lit "{}" ]} [])).
  - vm_compute. reflexivity.
  - vm_compute. reflexivity.
Defined.

(** C8. When the launch file already exists, a run of [main] neither reads
    nor writes it (it only checks that it exists), so its content after the
    run is what it was before; a second run in a row leaves the content of
    the first run in place. *)
Theorem launch_untouched (ws_dir orbit_path : str) (w : world) :
  is_Some (files w !! launch_path ws_dir) →
  let w1 := snd (main ws_dir orbit_path w) in
  let w2 := snd (main ws_dir orbit_path w1) in
  files w1 !! launch_path ws_dir = files w !! launch_path ws_dir
  ∧ files w2 !! launch_path ws_dir = files w1 !! launch_path ws_dir
  ∧ ∃ evs, trace w1 = trace w ++ evs
           ∧ Forall (λ e, ¬ accesses (launch_path ws_dir) e) evs.
Proof.
  intros H w1 w2.
  destruct (main_keeps_launch ws_dir orbit_path w H) as [H1 Hevs].
  fold w1 in H1, Hevs. split; [done|]. split; [|done].
  apply main_keeps_launch. by rewrite H1.
Qed.

(** A workspace with both templates, the isaac-sim settings file and a
    launch file: the settings step succeeds, the run reaches the launch
    step, whose existence check is its last event, and ends normally; the
    launch file is as it was, also after a second run. *)
Lemma launch_untouched_witness :
  let ws_dir := lit "/ws" in
  let orbit_path := lit "/opt/orbit" in
  let w := World (<[ lit "/ws/.vscode/launch.json" := lit "{ mine }" ]>
                    example_files) [] in
  let w1 := snd (main ws_dir orbit_path w) in
  let w2 := snd (main ws_dir orbit_path w1) in
  (fst (main ws_dir orbit_path w) = Ok ()
   ∧ fst (main ws_dir orbit_path w1) = Ok ()
   ∧ files w2 !! launch_path ws_dir = Some (lit "{ mine }")
   ∧ last (trace w1) = Some (EvExists (launch_path ws_dir)))
  ∧ files w1 !! launch_path ws_dir = files w !! launch_path ws_dir
  ∧ files w2 !! launch_path ws_dir = files w1 !! launch_path ws_dir
  ∧ ∃ evs, trace w1 = trace w ++ evs
           ∧ Forall (λ e, ¬ accesses (launch_path ws_dir) e) evs.
Proof.
  split.
  - repeat split; vm_compute; reflexivity.
  - apply (launch_untouched (lit "/ws") (lit "/opt/orbit")
             (World (<[ lit "/ws/.vscode/launch.json" := lit "{ mine }" ]>
                       example_files) [])).
    vm_compute. eauto.
Defined.

(** C9. The header begins with the comment marker
    [// This file is a template] and its last line is [// Generated from: ]
    followed by the path of the source template; and every file that [main]
    writes is such a header, naming the template it was made from, followed
    by the document. *)
Theorem header_msg_marker_and_source (src ws_dir orbit_path : str)
    (w : world) :
  startswith (lit "// This file is a template") (header_msg src) = true
  ∧ (∃ before, header_msg src
               = before ++ [nl] ++ lit "// Generated from: " ++ src ++ [nl])
  ∧ ∃ evs, trace (snd (main ws_dir orbit_path w)) = trace w ++ evs
           ∧ Forall (stamped ws_dir) evs.
Proof.
  split; [reflexivity|]. split.
  { exists (lit "// This file is a template and is automatically generated by the setup_vscode.py script."
            ++ [nl] ++ lit "// Do not edit this file directly." ++ [nl]
            ++ lit "// ").
    reflexivity. }
  rewrite main_unfold.
  destruct (files w !! settings_template_path ws_dir) as [tpl|].
  - destruct (main_settings_cases ws_dir orbit_path tpl
                (World (files w)
                   (trace w ++ [EvExists (settings_template_path ws_dir);
                                EvRead (settings_template_path ws_dir)])))
      as (evs & Hevs & [(o & -> & _) | (settings & ->)]).
    + cbn [snd trace]. eexists. split; [by rewrite <- app_assoc|].
      apply Forall_app. split.
      * repeat (apply Forall_cons_2; [done|]). apply Forall_nil_2.
      * eapply Forall_impl; [exact Hevs|]. by intros e [-> | ->].
    + cbv zeta. unfold main_launch. cbn [files trace].
      assert (∀ data' : str,
                stamped ws_dir
                  (EvWrite (settings_path ws_dir)
                     (header_msg (settings_template_path ws_dir) ++ data')))
        as Hs by (intros; simpl; eauto 10).
      assert (∀ data' : str,
                stamped ws_dir
                  (EvWrite (launch_path ws_dir)
                     (header_msg (launch_template_path ws_dir) ++ data')))
        as Hl by (intros; simpl; eauto 10).
      assert (Forall (stamped ws_dir) evs) as Hevs'.
      { eapply Forall_impl; [exact Hevs|]. by intros e [-> | ->]. }
      destruct (_ !! launch_path ws_dir);
        [|destruct (_ !! launch_template_path ws_dir)];
        cbn [snd log trace]; eexists;
        (split; [by rewrite <- !app_assoc|]);
        repeat first [ apply Forall_nil_2
                     | apply Forall_cons_2; [first [done | apply Hs | apply Hl]|]
                     | apply Forall_app; split; [assumption|] ].
  - cbn [snd log trace]. eexists. split; [done|].
    repeat (apply Forall_cons_2; [done|]). apply Forall_nil_2.
Qed.

Lemma interpreter_pattern_compiled :
  re_parse (re_escape interpreter_literal)
  = Some (of_simple (Some <$> interpreter_literal) ++ []).
Proof. rewrite app_nil_r. apply re_parse_escape. Qed.

(** C4. A settings document that contains the key followed by the expected
    value [${env:ORBIT_PATH}/_isaac_sim/python.sh] is rewritten, for the base
    directory [/opt/toolkit], into a document that contains the key followed
    by [/opt/toolkit/python.sh]. *)
Theorem interpreter_path_overwritten (before after : str) :
  ∃ before' after',
    overwrite_python_default_interpreter_path
      (before ++ default_python_interpreter_key
       ++ default_python_interpreter_value ++ after)
      (lit "/opt/toolkit")
    = Ok (before' ++ default_python_interpreter_key
          ++ dq :: lit "/opt/toolkit/python.sh" ++ dq :: after').
Proof.
  unfold overwrite_python_default_interpreter_path.
  fold interpreter_literal.
  rewrite (app_assoc default_python_interpreter_key). fold interpreter_literal.
  assert (parse_template (new_interpreter_path (lit "/opt/toolkit")) MText
          = Ok (TChar <$> new_interpreter_path (lit "/opt/toolkit"))) as Ht
    by reflexivity.
  destruct (search_from_literal_exists false interpreter_literal before after)
    as (a & b & Hs); [done|].
  destruct (re_sub_total _ _ false _ _ interpreter_pattern_compiled Ht b)
    as [r Hr].
  rewrite (re_sub_first _ _ _ _ _ interpreter_pattern_compiled Ht _ _ _ _ _
             Hs ltac:(done) Hr).
  exists a, r. rewrite expand_template_plain. reflexivity.
Qed.

(** The replacement text is compiled before the document is searched: a
    base directory that makes it an ill-formed template makes the call
    raise, whatever the document. *)
Lemma interpreter_rejected_template (ws_settings isaac_sim_dir : str) :
  parse_template (new_interpreter_path isaac_sim_dir) MText
  = Raise TemplateError →
  overwrite_python_default_interpreter_path ws_settings isaac_sim_dir
  = Raise TemplateError.
Proof.
  intros H. unfold overwrite_python_default_interpreter_path.
  fold interpreter_literal.
  by apply (re_sub_template_error _ _ _ _ _ interpreter_pattern_compiled).
Qed.

(** C5, at a base directory with a backslash: the document has no
    interpreter setting at all, and the call raises instead of returning
    it. The replacement text, which contains the base directory, is read by
    [re.sub] as a template, and [\k] is not an escape. *)
Theorem interpreter_no_match_bad_escape :
  occurs interpreter_literal (lit "{}") = false
  ∧ overwrite_python_default_interpreter_path (lit "{}") (lit "/opt/tool\kit")
    = Raise TemplateError.
Proof. split; reflexivity. Qed.

(** C6. In an isaac-sim settings file in which the first text matching the
    key pattern is the key, the matched region runs from the key to the
    first closing bracket after it, whatever follows that bracket; so a
    closing bracket inside a path entry ends the region. When the key does
    not occur again before that bracket, the extracted list is the text
    between the key and the bracket. *)
Theorem extracted_region_ends_at_first_bracket (pre body rest : str) :
  none_before true extra_paths_items pre extra_paths_key = true →
  rbracket ∉ body →
  re_search_group0 extra_paths_pattern
    (pre ++ extra_paths_key ++ body ++ rbracket :: rest) true
  = Ok (extra_paths_key ++ body ++ [rbracket])
  ∧ (occurs extra_paths_key body = false →
     extract_settings (pre ++ extra_paths_key ++ body ++ rbracket :: rest)
     = Ok body).
Proof.
  intros Hpre Hb. split.
  - unfold re_search_group0. rewrite extra_paths_pattern_compiled.
    destruct extra_paths_key_matches as [Hk Hlen].
    by rewrite search_from_region.
  - intros Hocc. by apply extract_settings_region.
Qed.

(** The file [{"python.analysis.extraPaths": ["a]b"]}]: the region stops
    inside the entry. *)
Lemma extracted_region_ends_at_first_bracket_witness :
  let pre := lit "{" in
  let body := dq :: lit "a" in
  let rest := lit "b" ++ dq :: lit "]}" in
  re_search_group0 extra_paths_pattern
    (pre ++ extra_paths_key ++ body ++ rbracket :: rest) true
  = Ok (extra_paths_key ++ body ++ [rbracket])
  ∧ (occurs extra_paths_key body = false →
     extract_settings (pre ++ extra_paths_key ++ body ++ rbracket :: rest)
     = Ok body).
Proof.
  apply (extracted_region_ends_at_first_bracket
           (lit "{") (dq :: lit "a") (lit "b" ++ dq :: lit "]}")).
  - reflexivity.
  - apply (bool_decide_unpack _). vm_compute. exact I.
Defined.

Lemma split_go_char_length (c : ascii) (s : str) :
  length (split_go [c] s 0) = S (count_char c s).
Proof.
  unfold count_char. induction s as [|x s IH]; [done|].
  cbn [split_go startswith length]. rewrite andb_true_r.
  rewrite filter_cons.
  destruct (Ascii.eqb_spec c x) as [->|Hne].
  - rewrite decide_True by done. simpl. by rewrite IH.
  - rewrite decide_False by done.
    destruct (split_go [c] s 0); simpl in *; done.
Qed.

(** C10. The list is cut at every comma, quoted or not: the number of
    pieces is the number of commas plus one. For the isaac-sim settings file
    [{"python.analysis.extraPaths": ["x,y"]}], whose list has the single
    entry [x,y], the list text extracted is ["x,y"], the entries built from
    it are [/opt/toolkit/x] and [/opt/toolkit/y], and the template
    [{"python.analysis.extraPaths": []}] is rewritten into a document with
    these two entries. *)
Theorem comma_inside_quotes_splits :
  (∀ settings, length (split_go (lit ",") settings 0)
               = S (count_char ","%char settings))
  ∧ ∃ sec template,
      sec = lit "{" ++ extra_paths_key ++ dq :: lit "x,y" ++ dq :: lit "]}"
      ∧ template = lit "{" ++ extra_paths_key ++ lit "]}"
      ∧ extract_settings sec = Ok (dq :: lit "x,y" ++ [dq])
      ∧ path_names (lit "/opt/toolkit") (dq :: lit "x,y" ++ [dq])
        = [dq :: lit "/opt/toolkit/x" ++ [dq];
           dq :: lit "/opt/toolkit/y" ++ [dq]]
      ∧ fst (overwrite_python_analysis_extra_paths template
               (lit "/opt/toolkit")
               (World {[ lit "/opt/toolkit/.vscode/settings.json" := sec ]} []))
        = Ok (lit "{" ++ extra_paths_key ++ nl :: lit "        "
              ++ dq :: lit "/opt/toolkit/x" ++ dq :: lit "," ++ nl
              :: lit "        " ++ dq :: lit "/opt/toolkit/y" ++ dq :: nl
              :: lit "    ]}").
Proof.
  split; [apply split_go_char_length|].
  exists (lit "{" ++ extra_paths_key ++ dq :: lit "x,y" ++ dq :: lit "]}"),
         (lit "{" ++ extra_paths_key ++ lit "]}").
  split; [done|]. split; [done|]. split; [vm_compute; reflexivity|].
  split; [reflexivity|]. vm_compute. reflexivity.
Qed.

(** ** The list [["a", "b"]] *)

Lemma all_space_not_elem (c : ascii) (w : str) :
  isspace c = false → all_space w → c ∉ w.
Proof.
  intros Hc Hw Hin. unfold all_space in Hw. rewrite Forall_forall in Hw.
  apply Hw in Hin. congruence.
Qed.

Lemma entry_not_elem (c x : ascii) (w w' : str) :
  isspace c = false → c ≠ dq → c ≠ x → all_space w → all_space w' →
  c ∉ w ++ dq :: x :: dq :: w'.
Proof.
  intros Hc Hdq Hx Hw Hw'.
  rewrite not_elem_of_app, !not_elem_of_cons.
  repeat split; try done; by apply all_space_not_elem.
Qed.

Lemma strip_entry (x : ascii) (w w' : str) :
  isspace x = false → x ≠ dq → all_space w → all_space w' →
  strip_chars [dq] (strip_ws (w ++ dq :: x :: dq :: w')) = [x].
Proof.
  intros Hx Hdq Hw Hw'. unfold strip_ws, strip.
  rewrite lstrip_all by done.
  change (lstrip isspace (dq :: x :: dq :: w')) with (([dq; x] ++ [dq]) ++ w').
  rewrite rstrip_all by done.
  rewrite rstrip_stop by done.
  apply Ascii.eqb_neq in Hdq.
  unfold strip_chars, strip, rstrip. cbn -[Ascii.eqb].
  rewrite !orb_false_r, Ascii.eqb_refl, Hdq. cbn -[Ascii.eqb].
  by rewrite !orb_false_r, Ascii.eqb_refl, Hdq.
Qed.

Lemma path_names_a_b (isaac_sim_dir w1 w2 w3 w4 : str) :
  all_space w1 → all_space w2 → all_space w3 → all_space w4 →
  path_names isaac_sim_dir (list_a_b w1 w2 w3 w4)
  = [dq :: isaac_sim_dir ++ lit "/a" ++ [dq];
     dq :: isaac_sim_dir ++ lit "/b" ++ [dq]].
Proof.
  intros H1 H2 H3 H4. unfold path_names, list_a_b.
  change (lit ",") with [","%char]. change (lit "a") with ["a"%char].
  change (lit "b") with ["b"%char]. cbn [app].
  rewrite split_go_char_first by by apply entry_not_elem.
  rewrite split_go_char_absent by by apply entry_not_elem.
  cbn [map]. rewrite !strip_entry by done.
  reflexivity.
Qed.

Lemma list_a_b_not_elem (c : ascii) (w1 w2 w3 w4 : str) :
  isspace c = false → c ≠ dq → c ≠ "a"%char → c ≠ "b"%char → c ≠ ","%char →
  all_space w1 → all_space w2 → all_space w3 → all_space w4 →
  c ∉ list_a_b w1 w2 w3 w4.
Proof.
  intros. unfold list_a_b.
  change (lit ",") with [","%char]. change (lit "a") with ["a"%char].
  change (lit "b") with ["b"%char]. cbn [app].
  rewrite not_elem_of_app, not_elem_of_cons.
  split; [by apply entry_not_elem|]. split; [done|].
  by apply entry_not_elem.
Qed.

(** C1. Let the isaac-sim settings file under [/opt/toolkit] have, as its
    first text matching the key pattern, the key followed by a list with the
    two quoted entries [a] and [b] (any white space around them) and a
    closing bracket; and let the template have one extra-paths region: the
    key, a text without closing bracket and a closing bracket, with no text
    matching the key pattern before or after it. Then the result is the
    template with that region replaced by the key and the list of
    ["/opt/toolkit/a"] and ["/opt/toolkit/b"], one entry per line; what
    stands before and after the region is unchanged. *)
Theorem extra_paths_a_b (w : world)
    (s_pre s_post w1 w2 w3 w4 t_pre t_body t_post : str) :
  all_space w1 → all_space w2 → all_space w3 → all_space w4 →
  files w !! lit "/opt/toolkit/.vscode/settings.json"
  = Some (s_pre ++ extra_paths_key ++ list_a_b w1 w2 w3 w4
          ++ rbracket :: s_post) →
  none_before true extra_paths_items s_pre extra_paths_key = true →
  none_before true extra_paths_items t_pre extra_paths_key = true →
  rbracket ∉ t_body →
  none_before true extra_paths_items t_post [] = true →
  fst (overwrite_python_analysis_extra_paths
         (t_pre ++ extra_paths_key ++ t_body ++ rbracket :: t_post)
         (lit "/opt/toolkit") w)
  = Ok (t_pre ++ literal_a_b ++ t_post).
Proof.
  intros H1 H2 H3 H4 Hfile Hs Ht Hb Hpost.
  rewrite (extra_paths_run _ (lit "/opt/toolkit") _ _ Hfile). cbn [fst].
  rewrite extract_settings_region; [|done|by apply list_a_b_not_elem|].
  2:{ apply (occurs_elem _ _ "p"%char); [|by apply list_a_b_not_elem].
      apply (bool_decide_unpack _). by vm_compute. }
  cbn [obind].
  assert (extra_paths_literal (lit "/opt/toolkit") (list_a_b w1 w2 w3 w4)
          = literal_a_b) as ->.
  { unfold extra_paths_literal. by rewrite path_names_a_b. }
  assert (parse_template literal_a_b MText = Ok (TChar <$> literal_a_b))
    as Hrepl by reflexivity.
  destruct extra_paths_key_matches as [Hk Hlen].
  rewrite (re_sub_first _ _ _ _ _ extra_paths_pattern_compiled Hrepl
             _ t_pre (extra_paths_key ++ t_body ++ [rbracket]) t_post t_post).
  - by rewrite expand_template_plain.
  - by apply search_from_region.
  - done.
  - apply (re_sub_no_match _ _ _ _ _ extra_paths_pattern_compiled Hrepl).
    by apply search_from_none.
Qed.

(** The file [{"python.analysis.extraPaths": ["a", "b"]}] and the template
    [{"python.analysis.extraPaths": []}]. *)
Lemma extra_paths_a_b_witness :
  fst (overwrite_python_analysis_extra_paths
         (lit "{" ++ extra_paths_key ++ [] ++ rbracket :: lit "}")
         (lit "/opt/toolkit")
         (World {[ lit "/opt/toolkit/.vscode/settings.json" :=
                     lit "{" ++ extra_paths_key ++ list_a_b [] [] [sp] []
                     ++ rbracket :: lit "}" ]} []))
  = Ok (lit "{" ++ literal_a_b ++ lit "}").
Proof.
  apply (extra_paths_a_b
           (World {[ lit "/opt/toolkit/.vscode/settings.json" :=
                       lit "{" ++ extra_paths_key ++ list_a_b [] [] [sp] []
                       ++ rbracket :: lit "}" ]} [])
           (lit "{") (lit "}") [] [] [sp] [] (lit "{") [] (lit "}")).
  - apply Forall_nil_2.
  - apply Forall_nil_2.
  - apply Forall_cons_2; [reflexivity|apply Forall_nil_2].
  - apply Forall_nil_2.
  - vm_compute. reflexivity.
  - reflexivity.
  - reflexivity.
  - apply not_elem_of_nil.
  - reflexivity.
Defined.

(** ** Every occurrence is replaced *)

Lemma search_from_literal_first (dotall : bool) (l pre rest : str) :
  l ≠ [] →
  none_before dotall (Some <$> l) pre l = true →
  search_from dotall (of_simple (Some <$> l) ++ []) (pre ++ l ++ rest) false
  = Some (pre, l, rest).
Proof.
  intros Hl Hpre.
  rewrite search_from_skip;
    [|by destruct l|by rewrite none_before_app by by rewrite length_fmap].
  rewrite (search_from_found _ _ _ _ l rest).
  - simpl. by rewrite app_nil_r.
  - by rewrite match_here_literal, startswith_app, drop_app_length.
Qed.

Lemma none_before_literal (dotall : bool) (l s : str) :
  l ≠ [] → occurs l s = false → none_before dotall (Some <$> l) s [] = true.
Proof.
  intros Hl. induction s as [|x s IH]; [done|]. intros H.
  simpl in H. apply orb_false_iff in H as [H1 H2].
  cbn [none_before]. rewrite app_nil_r, matches_at_literal.
  change (match l with [] => true | a :: p' => Ascii.eqb a x && startswith p' s end)
    with (startswith l (x :: s)) in H1.
  by rewrite H1, (IH H2).
Qed.

(** C3, as the script behaves: [re.sub] is called without a count, so every
    match is replaced, from left to right. When the replacement text is a
    well-formed template, the result for a document whose leftmost match
    stands between [pre] and [rest] is [pre], the expansion of the template,
    and the result of the same rewriting of [rest]: an occurrence in [rest]
    is replaced like the first one. This holds for the interpreter setting
    and for the extra-paths region. *)
Theorem replaces_every_occurrence (w : world) (isaac_sim_dir sec settings : str)
    (t1 t2 : list tpl_item) (pre1 rest1 pre2 body rest2 : str) :
  parse_template (new_interpreter_path isaac_sim_dir) MText = Ok t1 →
  none_before false (Some <$> interpreter_literal) pre1 interpreter_literal
  = true →
  files w !! isaacsim_vscode_filename isaac_sim_dir = Some sec →
  extract_settings sec = Ok settings →
  parse_template (extra_paths_literal isaac_sim_dir settings) MText = Ok t2 →
  none_before true extra_paths_items pre2 extra_paths_key = true →
  rbracket ∉ body →
  (∃ r, overwrite_python_default_interpreter_path rest1 isaac_sim_dir = Ok r
        ∧ overwrite_python_default_interpreter_path
            (pre1 ++ interpreter_literal ++ rest1) isaac_sim_dir
          = Ok (pre1 ++ expand_template t1 interpreter_literal ++ r))
  ∧ (∃ r, fst (overwrite_python_analysis_extra_paths rest2 isaac_sim_dir w)
          = Ok r
          ∧ fst (overwrite_python_analysis_extra_paths
                   (pre2 ++ extra_paths_key ++ body ++ rbracket :: rest2)
                   isaac_sim_dir w)
            = Ok (pre2
                  ++ expand_template t2 (extra_paths_key ++ body ++ [rbracket])
                  ++ r)).
Proof.
  intros Ht1 Hpre1 Hfile Hsettings Ht2 Hpre2 Hbody. split.
  - unfold overwrite_python_default_interpreter_path. fold interpreter_literal.
    destruct (re_sub_total _ _ false _ _ interpreter_pattern_compiled Ht1 rest1)
      as [r Hr].
    exists r. split; [done|].
    apply (re_sub_first _ _ _ _ _ interpreter_pattern_compiled Ht1
             _ pre1 interpreter_literal rest1 r); [|done|done].
    by apply search_from_literal_first.
  - rewrite !(extra_paths_run _ _ _ _ Hfile). cbn [fst].
    rewrite Hsettings. cbn [obind].
    destruct (re_sub_total _ _ true _ _ extra_paths_pattern_compiled Ht2 rest2)
      as [r Hr].
    exists r. split; [done|].
    destruct extra_paths_key_matches as [Hk Hlen].
    apply (re_sub_first _ _ _ _ _ extra_paths_pattern_compiled Ht2
             _ pre2 (extra_paths_key ++ body ++ [rbracket]) rest2 r);
      [|done|done].
    by apply search_from_region.
Qed.

(** The interpreter setting twice, and two extra-paths regions. *)
Lemma replaces_every_occurrence_witness :
  let dir := lit "/opt/toolkit" in
  let w := World {[ lit "/opt/toolkit/.vscode/settings.json" :=
                      extra_paths_key ++ dq :: lit "a" ++ dq :: lit "]" ]} [] in
  let new1 := new_interpreter_path dir in
  let new2 := extra_paths_key ++ nl :: lit "        " ++ dq
              :: lit "/opt/toolkit/a" ++ dq :: nl :: lit "    ]" in
  (∃ r, overwrite_python_default_interpreter_path
          (lit "," ++ interpreter_literal) dir = Ok r
        ∧ overwrite_python_default_interpreter_path
            ([] ++ interpreter_literal ++ lit "," ++ interpreter_literal) dir
          = Ok ([] ++ expand_template (TChar <$> new1) interpreter_literal ++ r))
  ∧ (∃ r, fst (overwrite_python_analysis_extra_paths
                 (lit "," ++ extra_paths_key ++ lit "]") dir w) = Ok r
          ∧ fst (overwrite_python_analysis_extra_paths
                   ([] ++ extra_paths_key ++ [] ++ rbracket
                    :: lit "," ++ extra_paths_key ++ lit "]") dir w)
            = Ok ([] ++ expand_template (TChar <$> new2)
                          (extra_paths_key ++ [] ++ [rbracket]) ++ r)).
Proof.
  apply (replaces_every_occurrence
           (World {[ lit "/opt/toolkit/.vscode/settings.json" :=
                       extra_paths_key ++ dq :: lit "a" ++ dq :: lit "]" ]} [])
           (lit "/opt/toolkit")
           (extra_paths_key ++ dq :: lit "a" ++ dq :: lit "]")
           (dq :: lit "a" ++ [dq])).
  - reflexivity.
  - reflexivity.
  - vm_compute. reflexivity.
  - reflexivity.
  - reflexivity.
  - reflexivity.
  - apply not_elem_of_nil.
Defined.

(** C3 as stated fails: with the interpreter setting twice in the document,
    and with two extra-paths regions in the template, the second occurrence
    is rewritten as well, not left as it was. *)
Lemma first_occurrence_only_counterexample :
  let dir := lit "/opt/toolkit" in
  let w := World {[ lit "/opt/toolkit/.vscode/settings.json" :=
                      extra_paths_key ++ dq :: lit "a" ++ dq :: lit "]" ]} [] in
  let new1 := default_python_interpreter_key
              ++ dq :: lit "/opt/toolkit/python.sh" ++ [dq] in
  let new2 := extra_paths_key ++ nl :: lit "        " ++ dq
              :: lit "/opt/toolkit/a" ++ dq :: nl :: lit "    ]" in
  let region := extra_paths_key ++ lit "]" in
  overwrite_python_default_interpreter_path
    (interpreter_literal ++ lit "," ++ interpreter_literal) dir
  = Ok (new1 ++ lit "," ++ new1)
  ∧ overwrite_python_default_interpreter_path
      (interpreter_literal ++ lit "," ++ interpreter_literal) dir
    ≠ Ok (new1 ++ lit "," ++ interpreter_literal)
  ∧ fst (overwrite_python_analysis_extra_paths
           (region ++ lit "," ++ region) dir w)
    = Ok (new2 ++ lit "," ++ new2)
  ∧ fst (overwrite_python_analysis_extra_paths
           (region ++ lit "," ++ region) dir w)
    ≠ Ok (new2 ++ lit "," ++ region).
Proof.
  cbv zeta. split; [vm_compute; reflexivity|].
  split; [vm_compute; discriminate|].
  split; [vm_compute; reflexivity|]. vm_compute. discriminate.
Qed.

(** ** Documents without a match *)

(** When the isaac-sim settings file has no text matching the pattern,
    [re.search] returns [None] and the call of [group] on it raises. *)
Lemma secondary_without_marker (ws_settings isaac_sim_dir sec : str)
    (w : world) :
  files w !! isaacsim_vscode_filename isaac_sim_dir = Some sec →
  search_from true extra_paths_regex sec false = None →
  fst (overwrite_python_analysis_extra_paths ws_settings isaac_sim_dir w)
  = Raise (AttributeError (lit "'NoneType' object has no attribute 'group'")).
Proof.
  intros Hfile Hnone. rewrite (extra_paths_run _ _ _ _ Hfile). cbn [fst].
  unfold extract_settings, re_search_group0.
  by rewrite extra_paths_pattern_compiled, Hnone.
Qed.

(** When the replacement text is a well-formed template, a template
    document without a match is returned as it is. *)
Lemma template_without_marker (ws_settings isaac_sim_dir sec settings : str)
    (t : list tpl_item) (w : world) :
  files w !! isaacsim_vscode_filename isaac_sim_dir = Some sec →
  extract_settings sec = Ok settings →
  parse_template (extra_paths_literal isaac_sim_dir settings) MText = Ok t →
  search_from true extra_paths_regex ws_settings false = None →
  fst (overwrite_python_analysis_extra_paths ws_settings isaac_sim_dir w)
  = Ok ws_settings.
Proof.
  intros Hfile Hsettings Ht Hnone. rewrite (extra_paths_run _ _ _ _ Hfile).
  cbn [fst]. rewrite Hsettings. cbn [obind].
  by apply (re_sub_no_match _ _ _ _ _ extra_paths_pattern_compiled Ht).
Qed.

Lemma interpreter_without_match (ws_settings isaac_sim_dir : str)
    (t : list tpl_item) :
  parse_template (new_interpreter_path isaac_sim_dir) MText = Ok t →
  occurs interpreter_literal ws_settings = false →
  overwrite_python_default_interpreter_path ws_settings isaac_sim_dir
  = Ok ws_settings.
Proof.
  intros Ht Hocc. unfold overwrite_python_default_interpreter_path.
  fold interpreter_literal.
  apply (re_sub_no_match _ _ _ _ _ interpreter_pattern_compiled Ht).
  apply search_from_none; [done|]. by apply none_before_literal.
Qed.

(** The same for the extra-paths list, whose replacement text contains the
    base directory and the entries of the isaac-sim settings file. *)
Lemma extra_paths_rejected_template
    (ws_settings isaac_sim_dir sec settings : str) (w : world) :
  files w !! isaacsim_vscode_filename isaac_sim_dir = Some sec →
  extract_settings sec = Ok settings →
  parse_template (extra_paths_literal isaac_sim_dir settings) MText
  = Raise TemplateError →
  fst (overwrite_python_analysis_extra_paths ws_settings isaac_sim_dir w)
  = Raise TemplateError.
Proof.
  intros Hfile Hsettings Ht. rewrite (extra_paths_run _ _ _ _ Hfile).
  cbn [fst]. rewrite Hsettings. cbn [obind].
  by apply (re_sub_template_error _ _ _ _ _ extra_paths_pattern_compiled).
Qed.

(** C7, at a base directory with a backslash: the isaac-sim settings file
    has the list [["a"]], the template [{}] has no text matching the
    pattern, and the call raises instead of returning the template. The
    replacement text contains the base directory and is read by [re.sub] as
    a template, in which [\k] is not an escape. *)
Theorem template_without_marker_bad_escape :
  let w := World {[ lit "/opt/tool\kit/.vscode/settings.json" :=
                      lit "{" ++ extra_paths_key ++ dq :: lit "a" ++ dq
                      :: lit "]}" ]} [] in
  search_from true extra_paths_regex (lit "{}") false = None
  ∧ fst (overwrite_python_analysis_extra_paths (lit "{}")
           (lit "/opt/tool\kit") w)
    = Raise TemplateError.
Proof. split; vm_compute; reflexivity. Qed.

(** ** Replacement texts without a backslash

    The replacement texts of the script are well-formed templates, and are
    written as they are, whenever the base directory and the list of the
    isaac-sim settings file contain no backslash. *)

Lemma lstrip_elem (f : ascii → bool) (s : str) (x : ascii) :
  x ∈ lstrip f s → x ∈ s.
Proof.
  induction s as [|c s IH]; [done|]. simpl.
  destruct (f c); [|done]. intros H. apply elem_of_cons. right. by apply IH.
Qed.

Lemma elem_of_rev (s : str) (x : ascii) : x ∈ rev s ↔ x ∈ s.
Proof. rewrite !list_elem_of_In. symmetry. apply in_rev. Qed.

Lemma strip_elem (f : ascii → bool) (s : str) (x : ascii) :
  x ∈ strip f s → x ∈ s.
Proof.
  unfold strip, rstrip. intros H.
  rewrite elem_of_rev in H. apply lstrip_elem in H.
  rewrite elem_of_rev in H. by apply lstrip_elem in H.
Qed.

Lemma split_go_elem (sep s : str) (skip : nat) (piece : str) (x : ascii) :
  piece ∈ split_go sep s skip → x ∈ piece → x ∈ s.
Proof.
  revert skip piece. induction s as [|c s IH]; intros skip piece Hp Hx.
  - simpl in Hp. apply list_elem_of_singleton in Hp as ->.
    by apply elem_of_nil in Hx.
  - apply elem_of_cons. cbn [split_go] in Hp. destruct skip as [|k].
    + destruct (startswith sep (c :: s)).
      * apply elem_of_cons in Hp as [->|Hp]; [by apply elem_of_nil in Hx|].
        right. by apply (IH _ _ Hp).
      * destruct (split_go sep s 0) as [|p l] eqn:E; simpl in Hp.
        { apply list_elem_of_singleton in Hp as ->.
          apply list_elem_of_singleton in Hx. by left. }
        apply elem_of_cons in Hp as [->|Hp].
        -- apply elem_of_cons in Hx as [->|Hx]; [by left|].
           right. apply (IH 0 p); [|done]. rewrite E. by left.
        -- right. apply (IH 0 piece); [|done]. rewrite E. by right.
    + right. by apply (IH _ _ Hp).
Qed.

Lemma join_elem (sep : str) (l : list str) (x : ascii) :
  x ∈ join sep l → x ∈ sep ∨ ∃ p, p ∈ l ∧ x ∈ p.
Proof.
  induction l as [|p l IH]; [by intros ?%elem_of_nil|].
  destruct l as [|q l].
  - intros H. right. exists p. split; [by left|done].
  - cbn [join]. intros H.
    apply elem_of_app in H as [H|H]; [right; exists p; split; [by left|done]|].
    apply elem_of_app in H as [H|H]; [by left|].
    destruct (IH H) as [?|(p' & Hp' & ?)]; [by left|].
    right. exists p'. split; [by right|done].
Qed.

Lemma new_interpreter_path_plain (isaac_sim_dir : str) :
  bslash ∉ isaac_sim_dir → bslash ∉ new_interpreter_path isaac_sim_dir.
Proof.
  intros H. unfold new_interpreter_path, os_path_join. cbn [foldl].
  rewrite (os_path_join2_relative _ (lit "python.sh")) by done.
  assert (bslash ∉ dir_prefix isaac_sim_dir) as Hd.
  { unfold dir_prefix. destruct (_ || _); [done|].
    rewrite not_elem_of_app. split; [done|].
    apply (bool_decide_unpack _). by vm_compute. }
  rewrite not_elem_of_app. split.
  { apply (bool_decide_unpack _). by vm_compute. }
  rewrite not_elem_of_cons. split; [done|].
  rewrite !not_elem_of_app. repeat split; try done;
    apply (bool_decide_unpack _); by vm_compute.
Qed.

Lemma extra_paths_literal_plain (isaac_sim_dir settings : str) :
  bslash ∉ isaac_sim_dir → bslash ∉ settings →
  bslash ∉ extra_paths_literal isaac_sim_dir settings.
Proof.
  intros Hd Hs. unfold extra_paths_literal. cbv zeta.
  rewrite !not_elem_of_app. split; [|split].
  - apply (bool_decide_unpack _). by vm_compute.
  - intros [H|(p & Hp & H)]%join_elem.
    { revert H. apply (bool_decide_unpack _). by vm_compute. }
    unfold path_names in Hp.
    apply list_elem_of_fmap in Hp as (name & -> & Hname).
    apply list_elem_of_filter in Hname as [_ Hname].
    apply list_elem_of_fmap in Hname as (piece & -> & Hpiece).
    apply elem_of_cons in H as [H|H]; [done|].
    apply elem_of_app in H as [H|H]; [done|].
    apply elem_of_app in H as [H|H].
    { revert H. apply (bool_decide_unpack _). by vm_compute. }
    apply elem_of_app in H as [H|H].
    + apply strip_elem, strip_elem in H.
      by apply (split_go_elem _ _ _ _ _ Hpiece) in H.
    + revert H. apply (bool_decide_unpack _). by vm_compute.
  - apply (bool_decide_unpack _). by vm_compute.
Qed.

(** X17. With a base directory without backslash, a document without the
    interpreter literal is returned as it is. *)
Lemma interpreter_without_match_plain (ws_settings isaac_sim_dir : str) :
  bslash ∉ isaac_sim_dir →
  occurs interpreter_literal ws_settings = false →
  overwrite_python_default_interpreter_path ws_settings isaac_sim_dir
  = Ok ws_settings.
Proof.
  intros Hd.
  apply (interpreter_without_match _ _
           (TChar <$> new_interpreter_path isaac_sim_dir)).
  by apply parse_template_plain, new_interpreter_path_plain.
Qed.

(** X18. With no backslash in the base directory nor in the list text of
    the isaac-sim settings file, a template without a match of the list
    pattern is returned as it is. *)
Lemma template_without_marker_plain
    (ws_settings isaac_sim_dir sec settings : str) (w : world) :
  bslash ∉ isaac_sim_dir → bslash ∉ settings →
  files w !! isaacsim_vscode_filename isaac_sim_dir = Some sec →
  extract_settings sec = Ok settings →
  search_from true extra_paths_regex ws_settings false = None →
  fst (overwrite_python_analysis_extra_paths ws_settings isaac_sim_dir w)
  = Ok ws_settings.
Proof.
  intros Hd Hs Hfile Hsettings.
  apply (template_without_marker _ _ sec settings
           (TChar <$> extra_paths_literal isaac_sim_dir settings));
    [done|done|].
  by apply parse_template_plain, extra_paths_literal_plain.
Qed.

(** * Further properties *)

(** ** The run of main *)

Lemma settings_path_ne_settings_template_path (ws_dir : str) :
  settings_path ws_dir ≠ settings_template_path ws_dir.
Proof.
  rewrite settings_path_eq, settings_template_path_eq. intros E.
  by apply app_inv_head in E.
Qed.

Lemma settings_path_ne_launch_template_path (ws_dir : str) :
  settings_path ws_dir ≠ launch_template_path ws_dir.
Proof.
  rewrite settings_path_eq, launch_template_path_eq. intros E.
  by apply app_inv_head in E.
Qed.

Lemma launch_path_ne_launch_template_path (ws_dir : str) :
  launch_path ws_dir ≠ launch_template_path ws_dir.
Proof.
  rewrite launch_path_eq, launch_template_path_eq. intros E.
  by apply app_inv_head in E.
Qed.

(** What [overwrite_python_analysis_extra_paths] returns depends on the
    isaac-sim settings file alone. *)
Lemma extra_paths_outcome_agree (ws_settings isaac_sim_dir : str)
    (w1 w2 : world) :
  files w1 !! isaacsim_vscode_filename isaac_sim_dir
  = files w2 !! isaacsim_vscode_filename isaac_sim_dir →
  fst (overwrite_python_analysis_extra_paths ws_settings isaac_sim_dir w1)
  = fst (overwrite_python_analysis_extra_paths ws_settings isaac_sim_dir w2).
Proof.
  intros H.
  destruct (files w2 !! isaacsim_vscode_filename isaac_sim_dir) as [sec|] eqn:E.
  - by rewrite (extra_paths_run _ _ _ _ H), (extra_paths_run _ _ _ _ E).
  - by rewrite (extra_paths_missing _ _ _ H), (extra_paths_missing _ _ _ E).
Qed.

Lemma extra_paths_files (ws_settings isaac_sim_dir : str) (w : world) :
  files (snd (overwrite_python_analysis_extra_paths ws_settings isaac_sim_dir w))
  = files w.
Proof.
  destruct (extra_paths_world ws_settings isaac_sim_dir w) as (evs & -> & _).
  done.
Qed.

(** The files after [main_launch]. *)
Lemma main_launch_files (ws_dir : str) (w : world) :
  files (snd (main_launch ws_dir w))
  = match files w !! launch_path ws_dir, files w !! launch_template_path ws_dir
    with
    | None, Some launch_template =>
        <[launch_path ws_dir :=
            header_msg (launch_template_path ws_dir) ++ launch_template]>
          (files w)
    | _, _ => files w
    end.
Proof.
  unfold main_launch.
  destruct (files w !! launch_path ws_dir);
    [|destruct (files w !! launch_template_path ws_dir)]; done.
Qed.

Lemma main_launch_outcome (ws_dir : str) (w : world) :
  fst (main_launch ws_dir w)
  = match files w !! launch_path ws_dir, files w !! launch_template_path ws_dir
    with
    | None, None => Raise (FileNotFoundErrno (launch_template_path ws_dir))
    | _, _ => Ok ()
    end.
Proof.
  unfold main_launch.
  destruct (files w !! launch_path ws_dir);
    [|destruct (files w !! launch_template_path ws_dir)]; done.
Qed.

(** The outcome and the files of a run of [main], from the files it starts
    with. *)
Lemma main_run (ws_dir orbit_path : str) (w : world) :
  let isaacsim_path := os_path_join orbit_path [lit "_isaac_sim"] in
  match files w !! settings_template_path ws_dir with
  | None =>
      fst (main ws_dir orbit_path w)
      = Raise (FileNotFoundError
                 (lit "Could not find the orbit template settings file: "
                  ++ settings_template_path ws_dir))
      ∧ files (snd (main ws_dir orbit_path w)) = files w
  | Some settings_template =>
      match obind (fst (overwrite_python_analysis_extra_paths
                          settings_template isaacsim_path w))
                  (λ settings, overwrite_python_default_interpreter_path
                                 settings isaacsim_path)
      with
      | Ok settings =>
          let written :=
            <[settings_path ws_dir :=
                header_msg (settings_template_path ws_dir) ++ settings]>
              (files w) in
          fst (main ws_dir orbit_path w)
          = match files w !! launch_path ws_dir,
                  files w !! launch_template_path ws_dir with
            | None, None =>
                Raise (FileNotFoundErrno (launch_template_path ws_dir))
            | _, _ => Ok ()
            end
          ∧ files (snd (main ws_dir orbit_path w))
            = match files w !! launch_path ws_dir,
                    files w !! launch_template_path ws_dir with
              | None, Some launch_template =>
                  <[launch_path ws_dir :=
                      header_msg (launch_template_path ws_dir)
                      ++ launch_template]> written
              | _, _ => written
              end
      | Raise e =>
          fst (main ws_dir orbit_path w) = Raise e
          ∧ files (snd (main ws_dir orbit_path w)) = files w
      | NotModelled =>
          fst (main ws_dir orbit_path w) = NotModelled
          ∧ files (snd (main ws_dir orbit_path w)) = files w
      end
  end.
Proof.
  intros isaacsim_path. rewrite main_unfold.
  destruct (files w !! settings_template_path ws_dir) as [tpl|]; [|done].
  unfold main_settings. fold isaacsim_path.
  set (w1 := World (files w) _).
  rewrite (extra_paths_outcome_agree tpl isaacsim_path w w1) by done.
  pose proof (extra_paths_files tpl isaacsim_path w1) as Hf.
  destruct (overwrite_python_analysis_extra_paths tpl isaacsim_path w1)
    as [[s1|e|] w2]; cbn [fst snd obind] in *; [|done..].
  destruct (overwrite_python_default_interpreter_path s1 isaacsim_path)
    as [s2|e|]; cbn [fst snd]; [|done..].
  rewrite main_launch_outcome, main_launch_files. cbn [files]. rewrite Hf.
  cbn [files].
  rewrite !lookup_insert_ne
    by (first [ apply not_eq_sym, launch_path_ne_settings_path
              | apply settings_path_ne_launch_template_path ]).
  done.
Qed.

(** X1. Whenever the settings template is found and both rewriters return,
    the settings file holds, after the run, the header for the template path
    followed by the template rewritten first by
    [overwrite_python_analysis_extra_paths] and then by
    [overwrite_python_default_interpreter_path]: whatever it held before,
    and also when the launch step raises afterwards. *)
Theorem main_writes_settings (ws_dir orbit_path : str) (w : world)
    (settings_template s1 s2 : str) :
  let isaacsim_path := os_path_join orbit_path [lit "_isaac_sim"] in
  files w !! settings_template_path ws_dir = Some settings_template →
  fst (overwrite_python_analysis_extra_paths settings_template isaacsim_path w)
  = Ok s1 →
  overwrite_python_default_interpreter_path s1 isaacsim_path = Ok s2 →
  files (snd (main ws_dir orbit_path w)) !! settings_path ws_dir
  = Some (header_msg (settings_template_path ws_dir) ++ s2).
Proof.
  intros isaacsim_path Ht H1 H2.
  pose proof (main_run ws_dir orbit_path w) as Hrun. cbv zeta in Hrun.
  fold isaacsim_path in Hrun. rewrite Ht, H1 in Hrun. cbn [obind] in Hrun.
  rewrite H2 in Hrun. destruct Hrun as [_ ->].
  destruct (files w !! launch_path ws_dir);
    [|destruct (files w !! launch_template_path ws_dir)];
    rewrite ?(lookup_insert_ne _ (launch_path ws_dir))
      by apply launch_path_ne_settings_path;
    apply lookup_insert_eq.
Qed.

Lemma main_writes_settings_witness :
  files (snd (main (lit "/ws") (lit "/opt/orbit") example_world))
    !! settings_path (lit "/ws")
  = Some (header_msg (settings_template_path (lit "/ws"))
          ++ lit "{" ++ literal_a_b_at (lit "/opt/orbit/_isaac_sim") ++ lit ", "
          ++ new_interpreter_path (lit "/opt/orbit/_isaac_sim") ++ lit "}").
Proof.
  apply (main_writes_settings (lit "/ws") (lit "/opt/orbit") example_world
           example_template
           (lit "{" ++ literal_a_b_at (lit "/opt/orbit/_isaac_sim") ++ lit ", "
            ++ interpreter_literal ++ lit "}")).
  - vm_compute. reflexivity.
  - vm_compute. reflexivity.
  - vm_compute. reflexivity.
Defined.

(** X2. [main] changes the file system only after the settings template was
    found and both rewriters returned: a run that ends with a different
    file map than it started with has passed all three steps. *)
Theorem main_changes_files_only_after_rewriting (ws_dir orbit_path : str)
    (w : world) :
  let isaacsim_path := os_path_join orbit_path [lit "_isaac_sim"] in
  files (snd (main ws_dir orbit_path w)) ≠ files w →
  ∃ settings_template s1 s2,
    files w !! settings_template_path ws_dir = Some settings_template
    ∧ fst (overwrite_python_analysis_extra_paths settings_template
             isaacsim_path w) = Ok s1
    ∧ overwrite_python_default_interpreter_path s1 isaacsim_path = Ok s2.
Proof.
  intros isaacsim_path Hne.
  pose proof (main_run ws_dir orbit_path w) as Hrun. cbv zeta in Hrun.
  fold isaacsim_path in Hrun.
  destruct (files w !! settings_template_path ws_dir) as [tpl|];
    [|by destruct Hrun].
  destruct (fst (overwrite_python_analysis_extra_paths tpl isaacsim_path w))
    as [s1|e|] eqn:E1; cbn [obind] in Hrun; [|by destruct Hrun..].
  destruct (overwrite_python_default_interpreter_path s1 isaacsim_path)
    as [s2|e|] eqn:E2; [|by destruct Hrun..].
  by exists tpl, s1, s2.
Qed.

Lemma main_changes_files_only_after_rewriting_witness :
  ∃ settings_template s1 s2,
    files example_world !! settings_template_path (lit "/ws")
    = Some settings_template
    ∧ fst (overwrite_python_analysis_extra_paths settings_template
             (os_path_join (lit "/opt/orbit") [lit "_isaac_sim"])
             example_world) = Ok s1
    ∧ overwrite_python_default_interpreter_path s1
        (os_path_join (lit "/opt/orbit") [lit "_isaac_sim"]) = Ok s2.
Proof.
  apply (main_changes_files_only_after_rewriting (lit "/ws") (lit "/opt/orbit")
           example_world).
  intros E.
  apply (f_equal (λ m : gmap str str, m !! settings_path (lit "/ws"))) in E.
  vm_compute in E. discriminate.
Defined.

(** X3. When there is no launch file and the launch template exists, a run
    whose settings step succeeds ends normally and creates the launch file:
    the header for the launch template path, followed by the launch template
    as it is. *)
Theorem main_creates_launch (ws_dir orbit_path : str) (w : world)
    (settings_template s1 s2 launch_template : str) :
  let isaacsim_path := os_path_join orbit_path [lit "_isaac_sim"] in
  files w !! settings_template_path ws_dir = Some settings_template →
  fst (overwrite_python_analysis_extra_paths settings_template isaacsim_path w)
  = Ok s1 →
  overwrite_python_default_interpreter_path s1 isaacsim_path = Ok s2 →
  files w !! launch_path ws_dir = None →
  files w !! launch_template_path ws_dir = Some launch_template →
  fst (main ws_dir orbit_path w) = Ok ()
  ∧ files (snd (main ws_dir orbit_path w)) !! launch_path ws_dir
    = Some (header_msg (launch_template_path ws_dir) ++ launch_template).
Proof.
  intros isaacsim_path Ht H1 H2 Hl Hlt.
  pose proof (main_run ws_dir orbit_path w) as Hrun. cbv zeta in Hrun.
  fold isaacsim_path in Hrun. rewrite Ht, H1 in Hrun. cbn [obind] in Hrun.
  rewrite H2, Hl, Hlt in Hrun. destruct Hrun as [-> ->].
  split; [done|]. apply lookup_insert_eq.
Qed.

Lemma main_creates_launch_witness :
  fst (main (lit "/ws") (lit "/opt/orbit") example_world) = Ok ()
  ∧ files (snd (main (lit "/ws") (lit "/opt/orbit") example_world))
      !! launch_path (lit "/ws")
    = Some (header_msg (launch_template_path (lit "/ws")) ++ lit "{}").
Proof.
  apply (main_creates_launch (lit "/ws") (lit "/opt/orbit") example_world
           example_template
           (lit "{" ++ literal_a_b_at (lit "/opt/orbit/_isaac_sim") ++ lit ", "
            ++ interpreter_literal ++ lit "}")
           (lit "{" ++ literal_a_b_at (lit "/opt/orbit/_isaac_sim") ++ lit ", "
            ++ new_interpreter_path (lit "/opt/orbit/_isaac_sim") ++ lit "}")).
  - vm_compute. reflexivity.
  - vm_compute. reflexivity.
  - vm_compute. reflexivity.
  - vm_compute. reflexivity.
  - vm_compute. reflexivity.
Defined.

(** X4. There is no rollback: when neither the launch file nor the launch
    template exists, a run whose settings step succeeds raises the
    [FileNotFoundError] of [open] for the launch template, after the
    settings file has been written; the settings file is the one change. *)
Theorem main_raises_after_settings_written (ws_dir orbit_path : str)
    (w : world) (settings_template s1 s2 : str) :
  let isaacsim_path := os_path_join orbit_path [lit "_isaac_sim"] in
  files w !! settings_template_path ws_dir = Some settings_template →
  fst (overwrite_python_analysis_extra_paths settings_template isaacsim_path w)
  = Ok s1 →
  overwrite_python_default_interpreter_path s1 isaacsim_path = Ok s2 →
  files w !! launch_path ws_dir = None →
  files w !! launch_template_path ws_dir = None →
  fst (main ws_dir orbit_path w)
  = Raise (FileNotFoundErrno (launch_template_path ws_dir))
  ∧ files (snd (main ws_dir orbit_path w))
    = <[settings_path ws_dir :=
          header_msg (settings_template_path ws_dir) ++ s2]> (files w).
Proof.
  intros isaacsim_path Ht H1 H2 Hl Hlt.
  pose proof (main_run ws_dir orbit_path w) as Hrun. cbv zeta in Hrun.
  fold isaacsim_path in Hrun. rewrite Ht, H1 in Hrun. cbn [obind] in Hrun.
  by rewrite H2, Hl, Hlt in Hrun.
Qed.

(** The example workspace without its launch template. *)
Lemma main_raises_after_settings_written_witness :
  let w := World (delete (lit "/ws/.vscode/tools/launch.template.json")
                    example_files) [] in
  fst (main (lit "/ws") (lit "/opt/orbit") w)
  = Raise (FileNotFoundErrno (launch_template_path (lit "/ws")))
  ∧ files (snd (main (lit "/ws") (lit "/opt/orbit") w))
    = <[settings_path (lit "/ws") :=
          header_msg (settings_template_path (lit "/ws"))
          ++ lit "{" ++ literal_a_b_at (lit "/opt/orbit/_isaac_sim") ++ lit ", "
          ++ new_interpreter_path (lit "/opt/orbit/_isaac_sim") ++ lit "}"]>
        (files w).
Proof.
  apply (main_raises_after_settings_written (lit "/ws") (lit "/opt/orbit")
           (World (delete (lit "/ws/.vscode/tools/launch.template.json")
                     example_files) [])
           example_template
           (lit "{" ++ literal_a_b_at (lit "/opt/orbit/_isaac_sim") ++ lit ", "
            ++ interpreter_literal ++ lit "}")).
  - vm_compute. reflexivity.
  - vm_compute. reflexivity.
  - vm_compute. reflexivity.
  - vm_compute. reflexivity.
  - vm_compute. reflexivity.
Defined.

(** X5. A run of [main] changes no file but the settings file and the
    launch file: the two templates, the isaac-sim settings file and every
    other file hold after the run what they held before, however it ends. *)
Theorem main_other_files_unchanged (ws_dir orbit_path path : str) (w : world) :
  path ≠ settings_path ws_dir →
  path ≠ launch_path ws_dir →
  files (snd (main ws_dir orbit_path w)) !! path = files w !! path.
Proof.
  intros Hs Hl.
  pose proof (main_run ws_dir orbit_path w) as Hrun. cbv zeta in Hrun.
  destruct (files w !! settings_template_path ws_dir) as [tpl|];
    [|by destruct Hrun as [_ ->]].
  destruct (obind _ _) as [s|e|]; [|by destruct Hrun as [_ ->]..].
  destruct Hrun as [_ ->].
  destruct (files w !! launch_path ws_dir);
    [|destruct (files w !! launch_template_path ws_dir)];
    by rewrite !lookup_insert_ne by done.
Qed.

Lemma main_other_files_unchanged_witness :
  files (snd (main (lit "/ws") (lit "/opt/orbit") example_world))
    !! settings_template_path (lit "/ws")
  = files example_world !! settings_template_path (lit "/ws").
Proof.
  apply (main_other_files_unchanged (lit "/ws") (lit "/opt/orbit")
           (settings_template_path (lit "/ws")) example_world).
  - vm_compute. discriminate.
  - vm_compute. discriminate.
Defined.

(** X6. After a run of [main] that ends normally both the settings file and
    the launch file exist, and the settings template and the isaac-sim
    settings file existed when it started. *)
Theorem main_ok_files_exist (ws_dir orbit_path : str) (w : world) :
  fst (main ws_dir orbit_path w) = Ok () →
  is_Some (files (snd (main ws_dir orbit_path w)) !! settings_path ws_dir)
  ∧ is_Some (files (snd (main ws_dir orbit_path w)) !! launch_path ws_dir)
  ∧ is_Some (files w !! settings_template_path ws_dir)
  ∧ is_Some (files w !! isaacsim_vscode_filename
                          (os_path_join orbit_path [lit "_isaac_sim"])).
Proof.
  intros Hok.
  pose proof (main_run ws_dir orbit_path w) as Hrun. cbv zeta in Hrun.
  pose proof (launch_path_ne_settings_path ws_dir) as Hne.
  destruct (files w !! settings_template_path ws_dir) as [tpl|];
    [|destruct Hrun as [Ho _]; by rewrite Hok in Ho].
  destruct (files w !! isaacsim_vscode_filename _) as [sec|] eqn:Hsec.
  2:{ rewrite (extra_paths_missing _ _ _ Hsec) in Hrun. cbn [fst obind] in Hrun.
      destruct Hrun as [Ho _]; by rewrite Hok in Ho. }
  destruct (obind _ _) as [s|e|];
    [|destruct Hrun as [Ho _]; by rewrite Hok in Ho..].
  destruct Hrun as [Ho ->]. rewrite Hok in Ho.
  destruct (files w !! launch_path ws_dir) as [l|] eqn:El;
    [|destruct (files w !! launch_template_path ws_dir); [|done]].
  - rewrite lookup_insert_eq, lookup_insert_ne, El by done. eauto.
  - rewrite lookup_insert_eq, lookup_insert_ne, lookup_insert_eq by done. eauto.
Qed.

Lemma main_ok_files_exist_witness :
  is_Some (files (snd (main (lit "/ws") (lit "/opt/orbit") example_world))
             !! settings_path (lit "/ws"))
  ∧ is_Some (files (snd (main (lit "/ws") (lit "/opt/orbit") example_world))
               !! launch_path (lit "/ws"))
  ∧ is_Some (files example_world !! settings_template_path (lit "/ws"))
  ∧ is_Some (files example_world
               !! isaacsim_vscode_filename
                    (os_path_join (lit "/opt/orbit") [lit "_isaac_sim"])).
Proof.
  apply (main_ok_files_exist (lit "/ws") (lit "/opt/orbit") example_world).
  vm_compute. reflexivity.
Defined.

Lemma settings_template_path_ne_launch_path (ws_dir : str) :
  settings_template_path ws_dir ≠ launch_path ws_dir.
Proof. apply not_eq_sym, launch_path_ne_settings_template_path. Qed.

(** X7. Running [main] a second time changes nothing more: provided the
    isaac-sim settings file is not the workspace settings file itself, the
    second run ends as the first did and leaves every file as the first run
    left it. *)
Theorem main_twice (ws_dir orbit_path : str) (w : world) :
  isaacsim_vscode_filename (os_path_join orbit_path [lit "_isaac_sim"])
  ≠ settings_path ws_dir →
  let w1 := snd (main ws_dir orbit_path w) in
  fst (main ws_dir orbit_path w1) = fst (main ws_dir orbit_path w)
  ∧ files (snd (main ws_dir orbit_path w1)) = files w1.
Proof.
  intros Hfn w1.
  set (isaacsim_path := os_path_join orbit_path [lit "_isaac_sim"]) in *.
  pose proof (main_run ws_dir orbit_path w) as Hrun1.
  pose proof (main_run ws_dir orbit_path w1) as Hrun2.
  cbv zeta in Hrun1, Hrun2. fold isaacsim_path w1 in Hrun1, Hrun2.
  pose proof (launch_path_ne_settings_path ws_dir) as Hls.
  pose proof (settings_path_ne_settings_template_path ws_dir) as Hst.
  pose proof (settings_path_ne_launch_template_path ws_dir) as Hslt.
  pose proof (launch_path_ne_settings_template_path ws_dir) as Hlt.
  pose proof (launch_path_ne_launch_template_path ws_dir) as Hllt.
  pose proof (launch_path_ne_isaacsim_vscode_filename ws_dir isaacsim_path)
    as Hlfn.
  (* the second run reads what the first run read *)
  assert (∀ tpl, files w1 !! isaacsim_vscode_filename isaacsim_path
                 = files w !! isaacsim_vscode_filename isaacsim_path →
                 fst (overwrite_python_analysis_extra_paths tpl isaacsim_path w1)
                 = fst (overwrite_python_analysis_extra_paths tpl isaacsim_path w))
    as Hagree by (intros; by apply extra_paths_outcome_agree).
  destruct (files w !! settings_template_path ws_dir) as [tpl|] eqn:Et.
  2:{ destruct Hrun1 as [Ho1 Hf1]. rewrite Hf1, Et in Hrun2.
      destruct Hrun2 as [Ho2 Hf2]. by rewrite Ho1, Ho2, Hf2. }
  destruct (obind (fst (overwrite_python_analysis_extra_paths tpl
                          isaacsim_path w)) _) as [s|e|] eqn:Eo.
  2,3: destruct Hrun1 as [Ho1 Hf1]; rewrite Hf1, Et in Hrun2;
       rewrite Hagree in Hrun2 by (by rewrite Hf1);
       rewrite Eo in Hrun2; destruct Hrun2 as [Ho2 Hf2];
       by rewrite Ho1, Ho2, Hf2.
  destruct Hrun1 as [Ho1 Hf1]. rewrite Ho1.
  set (data := header_msg (settings_template_path ws_dir) ++ s) in *.
  assert (files w1 !! settings_path ws_dir = Some data
          ∧ files w1 !! settings_template_path ws_dir = Some tpl
          ∧ files w1 !! isaacsim_vscode_filename isaacsim_path
            = files w !! isaacsim_vscode_filename isaacsim_path
          ∧ files w1 !! launch_template_path ws_dir
            = files w !! launch_template_path ws_dir
          ∧ files w1 !! launch_path ws_dir
            = match files w !! launch_path ws_dir,
                    files w !! launch_template_path ws_dir with
              | None, Some launch_template =>
                  Some (header_msg (launch_template_path ws_dir)
                        ++ launch_template)
              | l, _ => l
              end) as (Hsp & Htp & Hfn1 & Hltp & Hlp).
  { rewrite Hf1.
    destruct (files w !! launch_path ws_dir) as [l|] eqn:El;
      [|destruct (files w !! launch_template_path ws_dir) as [lt|] eqn:Elt];
      rewrite ?lookup_insert_eq, ?(lookup_insert_ne _ (launch_path ws_dir)),
        ?lookup_insert_eq, ?(lookup_insert_ne _ (settings_path ws_dir))
        by done; done. }
  rewrite Htp, (Hagree _ Hfn1), Eo, Hltp, Hlp in Hrun2.
  destruct Hrun2 as [Ho2 Hf2]. rewrite Ho2, Hf2.
  rewrite (insert_id _ _ _ Hsp).
  destruct (files w !! launch_path ws_dir) as [l|] eqn:El;
    [|destruct (files w !! launch_template_path ws_dir) as [lt|] eqn:Elt];
    done.
Qed.

Lemma main_twice_witness :
  let w1 := snd (main (lit "/ws") (lit "/opt/orbit") example_world) in
  fst (main (lit "/ws") (lit "/opt/orbit") w1)
  = fst (main (lit "/ws") (lit "/opt/orbit") example_world)
  ∧ files (snd (main (lit "/ws") (lit "/opt/orbit") w1)) = files w1.
Proof.
  apply (main_twice (lit "/ws") (lit "/opt/orbit") example_world).
  vm_compute. discriminate.
Defined.

(** ** The entries of the list *)

Lemma strip_ws_blank (w : str) : all_space w → strip_ws w = [].
Proof.
  intros H. unfold strip_ws, strip.
  rewrite <- (app_nil_r w), lstrip_all by done. reflexivity.
Qed.

Lemma strip_ws_quoted (w name w' : str) :
  all_space w → all_space w' →
  strip_ws (w ++ dq :: name ++ dq :: w') = dq :: name ++ [dq].
Proof.
  intros Hw Hw'. unfold strip_ws, strip. rewrite lstrip_all by done.
  change (lstrip isspace (dq :: name ++ dq :: w')) with (dq :: name ++ dq :: w').
  replace (dq :: name ++ dq :: w') with (((dq :: name) ++ [dq]) ++ w')
    by (by rewrite <- app_assoc).
  rewrite rstrip_all by done. by rewrite rstrip_stop.
Qed.

Lemma strip_quotes (name : str) :
  name ≠ [] → head name ≠ Some dq → last name ≠ Some dq →
  strip_chars [dq] (dq :: name ++ [dq]) = name.
Proof.
  intros Hne Hhd Hlast. unfold strip_chars, strip.
  assert (∀ c, c ≠ dq → existsb (Ascii.eqb c) [dq] = false) as Hf.
  { intros c Hc. simpl. by rewrite (proj2 (Ascii.eqb_neq c dq) Hc). }
  assert (lstrip (λ c, existsb (Ascii.eqb c) [dq]) (dq :: name ++ [dq])
          = name ++ [dq]) as ->.
  { destruct name as [|c name]; [done|].
    change (lstrip ?f (dq :: ?l)) with (lstrip f l).
    cbn [app lstrip]. rewrite Hf; [done|]. by intros ->. }
  rewrite rstrip_all.
  2:{ apply Forall_cons_2; [|apply Forall_nil_2]. reflexivity. }
  destruct name as [|c name _] using rev_ind; [done|].
  rewrite last_snoc in Hlast. apply rstrip_stop, Hf. by intros ->.
Qed.

Lemma split_go_join_char (c : ascii) (ts : list str) :
  ts ≠ [] → Forall (λ t, c ∉ t) ts → split_go [c] (join [c] ts) 0 = ts.
Proof.
  intros Hne H. induction H as [|t ts Ht Hts IH]; [done|].
  destruct ts as [|t' ts].
  - by apply split_go_char_absent.
  - change (join [c] (t :: t' :: ts)) with (t ++ c :: join [c] (t' :: ts)).
    rewrite split_go_char_first by done. by rewrite IH.
Qed.

Lemma piece_text_no_comma (p : list_piece) :
  piece_ok p → ","%char ∉ piece_text p.
Proof.
  destruct p as [w|w name w']; simpl.
  - by apply all_space_not_elem.
  - intros (Hw & Hw' & _ & Hc & _).
    rewrite not_elem_of_app, not_elem_of_cons, not_elem_of_app, not_elem_of_cons.
    repeat split; try done; by apply all_space_not_elem.
Qed.

(** X8. For a list text made of pieces separated by commas, each piece
    white space only or a quoted name with white space around it, the
    entries are the names in their order, each put between double quotes
    after the base directory and a slash; the blank pieces (an empty list, a
    trailing comma) give no entry. *)
Theorem path_names_pieces (isaac_sim_dir : str) (ps : list list_piece) :
  Forall piece_ok ps →
  path_names isaac_sim_dir (join (lit ",") (map piece_text ps))
  = map (quoted_path isaac_sim_dir) (flat_map piece_names ps).
Proof.
  intros Hok. unfold path_names. change (lit ",") with [","%char].
  destruct ps as [|p0 ps0]; [reflexivity|].
  rewrite split_go_join_char; [|done|].
  2:{ apply Forall_forall. intros t Ht.
      apply list_elem_of_fmap in Ht as (p & -> & Hp).
      apply piece_text_no_comma. rewrite Forall_forall in Hok. by apply Hok. }
  induction Hok as [|p ps Hp Hps IH]; [done|].
  cbn [map flat_map]. rewrite filter_cons.
  destruct p as [w|w name w']; simpl in Hp.
  - cbn [piece_text piece_names app]. rewrite strip_ws_blank by done.
    change (strip_chars [dq] []) with (@nil ascii).
    rewrite decide_False by (simpl; lia). apply IH.
  - destruct Hp as (Hw & Hw' & Hne & Hc & Hhd & Hlast).
    cbn [piece_text piece_names app].
    rewrite strip_ws_quoted, strip_quotes by done.
    rewrite decide_True by (destruct name; [done|simpl; lia]).
    cbn [map]. f_equal. apply IH.
Qed.

(** The list [ "a", "b c" , ] with a trailing comma. *)
Lemma path_names_pieces_witness :
  path_names (lit "/opt/toolkit")
    (join (lit ",") (map piece_text
       [Entry [sp] (lit "a") []; Entry [sp] (lit "b c") [sp]; Blank [sp]]))
  = map (quoted_path (lit "/opt/toolkit"))
        (flat_map piece_names
           [Entry [sp] (lit "a") []; Entry [sp] (lit "b c") [sp]; Blank [sp]]).
Proof.
  apply (path_names_pieces (lit "/opt/toolkit")
           [Entry [sp] (lit "a") []; Entry [sp] (lit "b c") [sp]; Blank [sp]]).
  assert (∀ name : str, bool_decide (name ≠ [] ∧ (","%char ∉ name)
                                     ∧ head name ≠ Some dq
                                     ∧ last name ≠ Some dq) = true →
            piece_ok (Entry [sp] name []) ∧ piece_ok (Entry [sp] name [sp]))
    as Hentry.
  { intros name H. apply bool_decide_eq_true in H as (? & ? & ? & ?).
    assert (all_space [sp]) by (apply Forall_cons_2; [done|apply Forall_nil_2]).
    assert (all_space []) by apply Forall_nil_2.
    split; simpl; done. }
  apply Forall_cons_2; [apply (Hentry (lit "a")); by vm_compute|].
  apply Forall_cons_2; [apply (Hentry (lit "b c")); by vm_compute|].
  apply Forall_cons_2; [|apply Forall_nil_2].
  apply Forall_cons_2; [done|apply Forall_nil_2].
Defined.

Lemma lstrip_suffix (f : ascii → bool) (s : str) :
  ∃ w, s = w ++ lstrip f s.
Proof.
  induction s as [|c s (w & IH)]; [by exists []|]. simpl.
  destruct (f c); [|by exists []]. exists (c :: w). simpl. by f_equal.
Qed.

Lemma lstrip_head (f : ascii → bool) (s : str) (c : ascii) :
  head (lstrip f s) = Some c → f c = false.
Proof.
  induction s as [|x s IH]; [done|]. simpl.
  destruct (f x) eqn:E; [done|]. by intros [= <-].
Qed.

Lemma head_rev (s : str) : head (rev s) = last s.
Proof.
  destruct s as [|c s _] using rev_ind; [done|].
  by rewrite rev_app_distr, last_snoc.
Qed.

Lemma last_rev (s : str) : last (rev s) = head s.
Proof. by rewrite <- head_rev, rev_involutive. Qed.

Lemma rstrip_prefix (f : ascii → bool) (s : str) :
  ∃ w, s = rstrip f s ++ w.
Proof.
  unfold rstrip. destruct (lstrip_suffix f (rev s)) as (w & Hw).
  exists (rev w). rewrite <- rev_app_distr, <- Hw. by rewrite rev_involutive.
Qed.

Lemma rstrip_last (f : ascii → bool) (s : str) (c : ascii) :
  last (rstrip f s) = Some c → f c = false.
Proof. unfold rstrip. rewrite last_rev. apply lstrip_head. Qed.

(** What is left after [strip] neither begins nor ends with a stripped
    character. *)
Lemma strip_ends (f : ascii → bool) (s : str) (c : ascii) :
  head (strip f s) = Some c ∨ last (strip f s) = Some c → f c = false.
Proof.
  unfold strip. intros [H|H]; [|by apply rstrip_last in H].
  destruct (rstrip_prefix f (lstrip f s)) as (w & Hw).
  apply (lstrip_head f s). rewrite Hw.
  by destruct (rstrip f (lstrip f s)).
Qed.

Lemma split_go_char_pieces (c : ascii) (s piece : str) :
  piece ∈ split_go [c] s 0 → c ∉ piece.
Proof.
  revert piece. induction s as [|x s IH]; intros piece H.
  - apply list_elem_of_singleton in H as ->. apply not_elem_of_nil.
  - cbn [split_go startswith length] in H. rewrite andb_true_r in H.
    destruct (Ascii.eqb_spec c x) as [->|Hne].
    + apply elem_of_cons in H as [->|H]; [apply not_elem_of_nil|by apply IH].
    + destruct (split_go [c] s 0) as [|p l]; simpl in H.
      { apply list_elem_of_singleton in H as ->.
        apply not_elem_of_cons. split; [done|apply not_elem_of_nil]. }
      apply elem_of_cons in H as [->|H].
      * apply not_elem_of_cons. split; [done|]. apply IH. by left.
      * apply IH. by right.
Qed.

(** X9. Whatever the list text, every entry is a name between double quotes
    after the base directory and a slash, where the name is not empty, has
    no comma and neither begins nor ends with a double quote; and there are
    at most as many entries as commas in the text plus one. *)
Theorem path_names_shape (isaac_sim_dir settings : str) :
  Forall (λ entry, ∃ name,
            entry = quoted_path isaac_sim_dir name
            ∧ name ≠ [] ∧ (","%char ∉ name)
            ∧ head name ≠ Some dq ∧ last name ≠ Some dq)
         (path_names isaac_sim_dir settings)
  ∧ length (path_names isaac_sim_dir settings)
    ≤ S (count_char ","%char settings).
Proof.
  unfold path_names. change (lit ",") with [","%char]. split.
  - apply Forall_forall. intros entry H.
    apply list_elem_of_fmap in H as (name & -> & H).
    apply list_elem_of_filter in H as [Hlen H].
    apply list_elem_of_fmap in H as (piece & -> & H).
    eexists. split; [reflexivity|].
    repeat split.
    + intros E. rewrite E in Hlen. simpl in Hlen. lia.
    + intros Hin. apply strip_elem, strip_elem in Hin.
      by apply (split_go_char_pieces _ _ _ H).
    + intros E.
      pose proof (strip_ends (λ c, existsb (Ascii.eqb c) [dq])
                    (strip_ws piece) dq (or_introl E)) as Hc.
      by vm_compute in Hc.
    + intros E.
      pose proof (strip_ends (λ c, existsb (Ascii.eqb c) [dq])
                    (strip_ws piece) dq (or_intror E)) as Hc.
      by vm_compute in Hc.
  - rewrite length_map.
    etrans; [apply length_filter|].
    by rewrite length_map, split_go_char_length.
Qed.

Lemma split_go_nonempty (sep s : str) (skip : nat) : split_go sep s skip ≠ [].
Proof.
  revert skip. induction s as [|c s IH]; intros skip; [done|].
  cbn [split_go]. destruct skip; [|apply IH].
  destruct (startswith sep (c :: s)); [done|].
  specialize (IH 0). by destruct (split_go sep s 0).
Qed.

Lemma split_go_hd_prefix (sep s : str) :
  ∃ r, s = hd [] (split_go sep s 0) ++ r.
Proof.
  induction s as [|c s (r & IH)]; [by exists []|].
  cbn [split_go]. destruct (startswith sep (c :: s)); [by eexists|].
  pose proof (split_go_nonempty sep s 0).
  destruct (split_go sep s 0) as [|p l]; [done|]. simpl in *.
  exists r. by f_equal.
Qed.

Lemma split_go_single (sep s p : str) : split_go sep s 0 = [p] → p = s.
Proof.
  revert p. induction s as [|c s IH]; intros p H; [by injection H|].
  cbn [split_go] in H. destruct (startswith sep (c :: s)).
  - injection H as _ H. by apply split_go_nonempty in H.
  - pose proof (split_go_nonempty sep s 0).
    destruct (split_go sep s 0) as [|p' l]; [done|]. simpl in H.
    injection H as <- ->. f_equal. by apply IH.
Qed.

(** The last piece of a split holds no separator. *)
Lemma split_go_last (sep s : str) (skip : nat) :
  sep ≠ [] → occurs sep (List.last (split_go sep s skip) []) = false.
Proof.
  intros Hsep. revert skip. induction s as [|c s IH]; intros skip.
  - simpl. by destruct sep.
  - cbn [split_go]. destruct skip as [|k]; [|apply IH].
    destruct (startswith sep (c :: s)) eqn:E.
    + pose proof (split_go_nonempty sep s (length sep - 1)).
      destruct (split_go sep s (length sep - 1)) eqn:E'; [done|].
      rewrite <- E'. change (List.last ([] :: split_go sep s (length sep - 1)) [])
        with (match split_go sep s (length sep - 1) with
              | [] => [] | _ :: _ => List.last (split_go sep s (length sep - 1)) []
              end).
      rewrite E'. rewrite <- E'. apply IH.
    + specialize (IH 0).
      destruct (split_go sep s 0) as [|p [|q l]] eqn:E'.
      * by apply split_go_nonempty in E'.
      * apply split_go_single in E' as ->. simpl in IH |- *.
        change (match sep with [] => true | a :: p' => Ascii.eqb a c && startswith p' s end)
          with (startswith sep (c :: s)).
        rewrite E. simpl. exact IH.
      * exact IH.
Qed.

Lemma occurs_prefix (sep a b : str) :
  sep ≠ [] → occurs sep (a ++ b) = false → occurs sep a = false.
Proof.
  intros Hsep. induction a as [|x a IH]; intros H.
  - simpl. by destruct sep.
  - cbn [app occurs] in *. apply orb_false_iff in H as [H1 H2].
    rewrite (IH H2), orb_false_r.
    destruct (startswith sep (x :: a)) eqn:E; [|done].
    apply startswith_true in E.
    change (x :: a ++ b) with ((x :: a) ++ b) in H1.
    rewrite E, <- app_assoc in H1.
    by rewrite startswith_app in H1.
Qed.

Lemma split_go_char_hd (c : ascii) (s : str) : c ∉ hd [] (split_go [c] s 0).
Proof.
  pose proof (split_go_nonempty [c] s 0).
  destruct (split_go [c] s 0) as [|p l] eqn:E; [done|].
  apply (split_go_char_pieces c s). rewrite E. by left.
Qed.

(** X10. Whenever the extraction of the list text returns, the text has no
    closing bracket and the key does not occur in it. *)
Theorem extract_settings_clean (vscode_settings settings : str) :
  extract_settings vscode_settings = Ok settings →
  (rbracket ∉ settings) ∧ occurs extra_paths_key settings = false.
Proof.
  unfold extract_settings, re_search_group0.
  rewrite extra_paths_pattern_compiled.
  destruct (search_from true extra_paths_regex vscode_settings false)
    as [[[pre m] rest]|]; [|done].
  cbn [obind str_split extra_paths_key]. fold extra_paths_key.
  change (lit "]") with [rbracket]. cbn [str_split obind].
  intros [= <-]. split; [apply split_go_char_hd|].
  destruct (split_go_hd_prefix [rbracket]
              (List.last (split_go extra_paths_key m 0) [])) as (r & Hr).
  apply (occurs_prefix _ _ r); [done|]. rewrite <- Hr.
  by apply split_go_last.
Qed.

(** A file with the key twice before the first closing bracket. *)
Lemma extract_settings_clean_witness :
  (rbracket ∉ dq :: lit "a" ++ [dq])
  ∧ occurs extra_paths_key (dq :: lit "a" ++ [dq]) = false.
Proof.
  apply (extract_settings_clean
           (lit "{" ++ extra_paths_key ++ extra_paths_key ++ dq :: lit "a"
            ++ dq :: lit "]}")).
  vm_compute. reflexivity.
Defined.

(** ** Rewriting a template with one region *)

Lemma extra_paths_literal_eq (isaac_sim_dir settings : str) :
  extra_paths_literal isaac_sim_dir settings
  = extra_paths_key ++ extra_paths_inner isaac_sim_dir settings ++ [rbracket].
Proof.
  unfold extra_paths_literal, extra_paths_inner. cbv zeta.
  change (expandtabs 4 (extra_paths_key ++ [nl; tab; tab]))
    with (extra_paths_key ++ nl :: lit "        ").
  change (expandtabs 4 (lit "," ++ [nl; tab; tab]))
    with (lit "," ++ nl :: lit "        ").
  change (expandtabs 4 ([nl; tab] ++ lit "]")) with ((nl :: lit "    ") ++ [rbracket]).
  cbn [app]. rewrite <- !app_assoc. reflexivity.
Qed.

(** The characters of the inner text come from the base directory, from the
    list text, or are a newline, a space, a comma, a slash or a double
    quote. *)
Lemma extra_paths_inner_elem (isaac_sim_dir settings : str) (x : ascii) :
  x ∈ extra_paths_inner isaac_sim_dir settings →
  x ∈ isaac_sim_dir ∨ x ∈ settings ∨ x ∈ [nl; sp; ","%char; "/"%char; dq].
Proof.
  unfold extra_paths_inner. intros H.
  set (consts := [nl; sp; ","%char; "/"%char; dq]).
  assert (∀ l : str, x ∈ l →
            forallb (λ c, bool_decide (c ∈ consts)) l = true → x ∈ consts)
    as Hconst.
  { intros l Hl Hall. rewrite forallb_forall in Hall.
    apply list_elem_of_In, Hall in Hl. by apply bool_decide_eq_true in Hl. }
  apply elem_of_cons in H as [->|H]; [right; right; by left|].
  apply elem_of_app in H as [H|H];
    [right; right; apply (Hconst _ H); reflexivity|].
  apply elem_of_app in H as [H|H];
    [|right; right; apply (Hconst _ H); reflexivity].
  apply join_elem in H as [H|(entry & Hentry & H)];
    [right; right; apply (Hconst _ H); reflexivity|].
  unfold path_names in Hentry.
  apply list_elem_of_fmap in Hentry as (name & -> & Hname).
  apply list_elem_of_filter in Hname as [_ Hname].
  apply list_elem_of_fmap in Hname as (piece & -> & Hpiece).
  apply elem_of_cons in H as [->|H];
    [right; right; apply (Hconst [dq]); [by left|reflexivity]|].
  apply elem_of_app in H as [H|H]; [by left|].
  apply elem_of_app in H as [H|H];
    [right; right; apply (Hconst _ H); reflexivity|].
  apply elem_of_app in H as [H|H];
    [|right; right; apply (Hconst _ H); reflexivity].
  right; left. apply strip_elem, strip_elem in H.
  by apply (split_go_elem _ _ _ _ _ Hpiece).
Qed.

(** A text that matches the key pattern begins with a double quote and a
    [p], and no such text can begin inside another match of the key pattern:
    which text of this kind follows [pre] makes no difference to the matches
    that begin inside [pre]. *)
Lemma matches_at_before_key (q r r' : str) :
  q ≠ [] →
  matches_at true extra_paths_items (q ++ dq :: "p"%char :: r)
  = matches_at true extra_paths_items (q ++ dq :: "p"%char :: r').
Proof.
  intros Hq.
  destruct (decide (length extra_paths_items ≤ length q)) as [Hlen|Hlen].
  { by rewrite !matches_at_app_long. }
  change (length extra_paths_items) with 31 in Hlen.
  do 31 (destruct q as [|? q]; [try done; reflexivity|]).
  simpl in Hlen. lia.
Qed.

Lemma key_begins (key : str) :
  matches_at true extra_paths_items key = true →
  ∃ r, key = dq :: "p"%char :: r.
Proof.
  destruct key as [|c1 [|c2 key]]; intros H; cbn -[Ascii.eqb] in H;
    [done|by rewrite andb_false_r in H|].
  apply andb_true_iff in H as [H1 H].
  apply andb_true_iff in H as [H2 _].
  apply Ascii.eqb_eq in H1 as ->. apply Ascii.eqb_eq in H2 as ->. by eexists.
Qed.

Lemma none_before_any_key (pre key key' : str) :
  matches_at true extra_paths_items key = true →
  matches_at true extra_paths_items key' = true →
  none_before true extra_paths_items pre key
  = none_before true extra_paths_items pre key'.
Proof.
  intros (r & ->)%key_begins (r' & ->)%key_begins.
  induction pre as [|x pre IH]; [done|].
  cbn [none_before]. rewrite IH. f_equal. f_equal.
  by apply matches_at_before_key.
Qed.

(** The rewriting of a template with one region. *)
Lemma extra_paths_region_rewrite (w : world)
    (isaac_sim_dir sec settings t_pre key t_body t_post : str) :
  files w !! isaacsim_vscode_filename isaac_sim_dir = Some sec →
  extract_settings sec = Ok settings →
  bslash ∉ isaac_sim_dir →
  bslash ∉ settings →
  matches_at true extra_paths_items key = true →
  length key = length extra_paths_items →
  none_before true extra_paths_items t_pre key = true →
  rbracket ∉ t_body →
  none_before true extra_paths_items t_post [] = true →
  re_sub extra_paths_pattern (extra_paths_literal isaac_sim_dir settings)
    (t_pre ++ key ++ t_body ++ rbracket :: t_post) true
  = Ok (t_pre ++ extra_paths_literal isaac_sim_dir settings ++ t_post).
Proof.
  intros Hfile Hsettings Hd Hs Hk Hlen Hpre Hbody Hpost.
  pose proof (parse_template_plain _
                (extra_paths_literal_plain _ _ Hd Hs)) as Hrepl.
  rewrite (re_sub_first _ _ _ _ _ extra_paths_pattern_compiled Hrepl
             _ t_pre (key ++ t_body ++ [rbracket]) t_post t_post).
  - by rewrite expand_template_plain.
  - by apply search_from_region.
  - by destruct key.
  - apply (re_sub_no_match _ _ _ _ _ extra_paths_pattern_compiled Hrepl).
    by apply search_from_none.
Qed.

Lemma extract_settings_no_bracket (vscode_settings settings : str) :
  extract_settings vscode_settings = Ok settings → rbracket ∉ settings.
Proof.
  unfold extract_settings, re_search_group0.
  rewrite extra_paths_pattern_compiled.
  destruct (search_from true extra_paths_regex vscode_settings false)
    as [[[pre m] rest]|]; [|done].
  cbn [obind str_split extra_paths_key]. fold extra_paths_key.
  change (lit "]") with [rbracket]. cbn [str_split obind].
  intros [= <-]. apply split_go_char_hd.
Qed.

(** X11. Let the isaac-sim settings file yield a list text, and let neither
    the base directory nor that text have a backslash. For a template with
    one region (a text that matches the key pattern, whatever stands for its
    two dots; a text without closing bracket; a closing bracket) and no text
    matching the key pattern before or after it, the result is the template
    with the region replaced by the key as the script spells it, the entries
    one per line, and the bracket; the rest of the template is unchanged. *)
Theorem extra_paths_one_region (w : world)
    (isaac_sim_dir sec settings t_pre key t_body t_post : str) :
  files w !! isaacsim_vscode_filename isaac_sim_dir = Some sec →
  extract_settings sec = Ok settings →
  bslash ∉ isaac_sim_dir →
  bslash ∉ settings →
  matches_at true extra_paths_items key = true →
  length key = length extra_paths_items →
  none_before true extra_paths_items t_pre key = true →
  rbracket ∉ t_body →
  none_before true extra_paths_items t_post [] = true →
  fst (overwrite_python_analysis_extra_paths
         (t_pre ++ key ++ t_body ++ rbracket :: t_post) isaac_sim_dir w)
  = Ok (t_pre ++ extra_paths_key
        ++ extra_paths_inner isaac_sim_dir settings ++ rbracket :: t_post).
Proof.
  intros Hfile Hsettings Hd Hs Hk Hlen Hpre Hbody Hpost.
  rewrite (extra_paths_run _ _ _ _ Hfile). cbn [fst].
  rewrite Hsettings. cbn [obind].
  rewrite (extra_paths_region_rewrite w _ sec) by done.
  rewrite extra_paths_literal_eq. by rewrite <- !app_assoc.
Qed.

(** A template whose key is spelled with underscores in place of the dots. *)
Lemma extra_paths_one_region_witness :
  let key := dq :: lit "python_analysis_extraPaths" ++ dq :: lit ": [" in
  fst (overwrite_python_analysis_extra_paths
         (lit "{" ++ key ++ lit "1, 2" ++ rbracket :: lit "}")
         (lit "/opt/orbit/_isaac_sim") example_world)
  = Ok (lit "{" ++ extra_paths_key
        ++ extra_paths_inner (lit "/opt/orbit/_isaac_sim")
             (list_a_b [] [] [sp] [])
        ++ rbracket :: lit "}").
Proof.
  apply (extra_paths_one_region example_world (lit "/opt/orbit/_isaac_sim")
           (lit "{" ++ extra_paths_key ++ list_a_b [] [] [sp] [] ++ lit "]}")).
  - vm_compute. reflexivity.
  - vm_compute. reflexivity.
  - apply (bool_decide_unpack _). by vm_compute.
  - apply (bool_decide_unpack _). by vm_compute.
  - reflexivity.
  - reflexivity.
  - reflexivity.
  - apply (bool_decide_unpack _). by vm_compute.
  - reflexivity.
Defined.

(** X12. Rewriting is idempotent on such a template: when, besides, the
    base directory has no closing bracket, rewriting the result again gives
    the result. *)
Theorem extra_paths_idempotent (w : world)
    (isaac_sim_dir sec settings t_pre key t_body t_post : str) :
  files w !! isaacsim_vscode_filename isaac_sim_dir = Some sec →
  extract_settings sec = Ok settings →
  bslash ∉ isaac_sim_dir →
  bslash ∉ settings →
  rbracket ∉ isaac_sim_dir →
  matches_at true extra_paths_items key = true →
  length key = length extra_paths_items →
  none_before true extra_paths_items t_pre key = true →
  rbracket ∉ t_body →
  none_before true extra_paths_items t_post [] = true →
  ∃ result,
    fst (overwrite_python_analysis_extra_paths
           (t_pre ++ key ++ t_body ++ rbracket :: t_post) isaac_sim_dir w)
    = Ok result
    ∧ fst (overwrite_python_analysis_extra_paths result isaac_sim_dir w)
      = Ok result.
Proof.
  intros Hfile Hsettings Hd Hs Hrb Hk Hlen Hpre Hbody Hpost.
  destruct extra_paths_key_matches as [Hk' Hlen'].
  rewrite !(extra_paths_run _ _ _ _ Hfile). cbn [fst].
  rewrite Hsettings. cbn [obind].
  rewrite (extra_paths_region_rewrite w _ sec) by done.
  eexists. split; [reflexivity|].
  assert (t_pre ++ extra_paths_literal isaac_sim_dir settings ++ t_post
          = t_pre ++ extra_paths_key
            ++ extra_paths_inner isaac_sim_dir settings ++ rbracket :: t_post)
    as Hshape by (by rewrite extra_paths_literal_eq, <- !app_assoc).
  rewrite Hshape, (extra_paths_run _ _ _ _ Hfile). cbn [fst].
  rewrite Hsettings. cbn [obind].
  rewrite (extra_paths_region_rewrite w _ sec); try done.
  - by rewrite Hshape.
  - by rewrite (none_before_any_key _ _ key).
  - intros Hin. apply extra_paths_inner_elem in Hin as [Hin|[Hin|Hin]].
    + done.
    + by apply (extract_settings_no_bracket sec settings) in Hin.
    + revert Hin. apply (bool_decide_unpack _). by vm_compute.
Qed.

Lemma extra_paths_idempotent_witness :
  let key := dq :: lit "python_analysis_extraPaths" ++ dq :: lit ": [" in
  ∃ result,
    fst (overwrite_python_analysis_extra_paths
           (lit "{" ++ key ++ lit "1, 2" ++ rbracket :: lit "}")
           (lit "/opt/orbit/_isaac_sim") example_world)
    = Ok result
    ∧ fst (overwrite_python_analysis_extra_paths result
             (lit "/opt/orbit/_isaac_sim") example_world)
      = Ok result.
Proof.
  apply (extra_paths_idempotent example_world (lit "/opt/orbit/_isaac_sim")
           (lit "{" ++ extra_paths_key ++ list_a_b [] [] [sp] [] ++ lit "]}")
           (list_a_b [] [] [sp] [])).
  - vm_compute. reflexivity.
  - vm_compute. reflexivity.
  - apply (bool_decide_unpack _). by vm_compute.
  - apply (bool_decide_unpack _). by vm_compute.
  - apply (bool_decide_unpack _). by vm_compute.
  - reflexivity.
  - reflexivity.
  - reflexivity.
  - apply (bool_decide_unpack _). by vm_compute.
  - reflexivity.
Defined.

Lemma path_names_blank (isaac_sim_dir w : str) :
  all_space w → path_names isaac_sim_dir w = [].
Proof.
  intros Hw. unfold path_names. change (lit ",") with [","%char].
  rewrite split_go_char_absent by by apply all_space_not_elem.
  cbn [map]. rewrite strip_ws_blank by done. reflexivity.
Qed.

(** X13. When the list of the isaac-sim settings file is empty or white
    space only, the region of the template is replaced by the key, a line
    of eight spaces and a line of four spaces before the bracket: no entry
    is written, so the base directory does not appear, and this holds for
    every base directory. *)
Theorem extra_paths_empty_list (w : world)
    (isaac_sim_dir s_pre blank s_post t_pre key t_body t_post : str) :
  files w !! isaacsim_vscode_filename isaac_sim_dir
  = Some (s_pre ++ extra_paths_key ++ blank ++ rbracket :: s_post) →
  none_before true extra_paths_items s_pre extra_paths_key = true →
  all_space blank →
  matches_at true extra_paths_items key = true →
  length key = length extra_paths_items →
  none_before true extra_paths_items t_pre key = true →
  rbracket ∉ t_body →
  none_before true extra_paths_items t_post [] = true →
  fst (overwrite_python_analysis_extra_paths
         (t_pre ++ key ++ t_body ++ rbracket :: t_post) isaac_sim_dir w)
  = Ok (t_pre ++ extra_paths_key ++ nl :: lit "        " ++ nl :: lit "    ]"
        ++ t_post).
Proof.
  intros Hfile Hs Hblank Hk Hlen Hpre Hbody Hpost.
  rewrite (extra_paths_run _ _ _ _ Hfile). cbn [fst].
  rewrite extract_settings_region; [|done| |].
  2:{ by apply all_space_not_elem. }
  2:{ apply (occurs_elem _ _ "p"%char); [|by apply all_space_not_elem].
      apply (bool_decide_unpack _). by vm_compute. }
  cbn [obind].
  assert (extra_paths_literal isaac_sim_dir blank
          = extra_paths_key ++ nl :: lit "        " ++ nl :: lit "    ]") as ->.
  { unfold extra_paths_literal. by rewrite path_names_blank. }
  assert (parse_template
            (extra_paths_key ++ nl :: lit "        " ++ nl :: lit "    ]") MText
          = Ok (TChar <$> extra_paths_key ++ nl :: lit "        "
                          ++ nl :: lit "    ]")) as Hrepl by reflexivity.
  rewrite (re_sub_first _ _ _ _ _ extra_paths_pattern_compiled Hrepl
             _ t_pre (key ++ t_body ++ [rbracket]) t_post t_post).
  - rewrite expand_template_plain. by rewrite <- !app_assoc.
  - by apply search_from_region.
  - by destruct key.
  - apply (re_sub_no_match _ _ _ _ _ extra_paths_pattern_compiled Hrepl).
    by apply search_from_none.
Qed.

(** An empty list, under a base directory with a backslash. *)
Lemma extra_paths_empty_list_witness :
  fst (overwrite_python_analysis_extra_paths
         (lit "{" ++ extra_paths_key ++ lit "1" ++ rbracket :: lit "}")
         (lit "/opt/tool\kit")
         (World {[ lit "/opt/tool\kit/.vscode/settings.json" :=
                     lit "{" ++ extra_paths_key ++ [sp] ++ rbracket :: lit "}" ]}
            []))
  = Ok (lit "{" ++ extra_paths_key ++ nl :: lit "        " ++ nl :: lit "    ]"
        ++ lit "}").
Proof.
  apply (extra_paths_empty_list
           (World {[ lit "/opt/tool\kit/.vscode/settings.json" :=
                       lit "{" ++ extra_paths_key ++ [sp] ++ rbracket
                       :: lit "}" ]} [])
           (lit "/opt/tool\kit") (lit "{") [sp] (lit "}")
           (lit "{") extra_paths_key (lit "1") (lit "}")).
  - vm_compute. reflexivity.
  - reflexivity.
  - apply Forall_cons_2; [reflexivity|apply Forall_nil_2].
  - reflexivity.
  - reflexivity.
  - reflexivity.
  - apply (bool_decide_unpack _). by vm_compute.
  - reflexivity.
Defined.

Lemma search_from_no_bracket (s : str) (adv : bool) :
  rbracket ∉ s → search_from true extra_paths_regex s adv = None.
Proof.
  revert adv. induction s as [|x s IH]; intros adv H.
  - reflexivity.
  - assert (match_here true extra_paths_regex (x :: s) adv = None) as Hm.
    { unfold extra_paths_regex. rewrite match_here_simple by done.
      destruct (matches_at true extra_paths_items (x :: s)); [|done].
      rewrite match_here_lazy_none; [done|].
      intros Hin. apply H. by apply (subseteq_drop _ _ _ Hin). }
    cbn [search_from]. rewrite Hm.
    apply not_elem_of_cons in H as [_ H]. by rewrite (IH false H).
Qed.

(** X14. When the isaac-sim settings file exists but has no closing bracket
    at all, or no text matching the key pattern, the function raises
    [AttributeError] (the search returns [None]) for every template and
    every base directory, and changes no file. *)
Theorem extra_paths_no_list (ws_settings isaac_sim_dir sec : str) (w : world) :
  files w !! isaacsim_vscode_filename isaac_sim_dir = Some sec →
  rbracket ∉ sec ∨ none_before true extra_paths_items sec [] = true →
  fst (overwrite_python_analysis_extra_paths ws_settings isaac_sim_dir w)
  = Raise (AttributeError (lit "'NoneType' object has no attribute 'group'"))
  ∧ files (snd (overwrite_python_analysis_extra_paths ws_settings
                  isaac_sim_dir w))
    = files w.
Proof.
  intros Hfile Hsec. split; [|apply extra_paths_files].
  rewrite (extra_paths_run _ _ _ _ Hfile). cbn [fst].
  unfold extract_settings, re_search_group0.
  rewrite extra_paths_pattern_compiled.
  destruct Hsec as [Hsec|Hsec].
  - by rewrite search_from_no_bracket.
  - unfold extra_paths_regex. by rewrite search_from_none.
Qed.

(** A settings file whose list is not closed. *)
Lemma extra_paths_no_list_witness :
  let w := World {[ lit "/opt/toolkit/.vscode/settings.json" :=
                      lit "{" ++ extra_paths_key ++ dq :: lit "a" ++ [dq] ]} []
  in
  fst (overwrite_python_analysis_extra_paths (lit "{}") (lit "/opt/toolkit") w)
  = Raise (AttributeError (lit "'NoneType' object has no attribute 'group'"))
  ∧ files (snd (overwrite_python_analysis_extra_paths (lit "{}")
                  (lit "/opt/toolkit") w))
    = files w.
Proof.
  apply (extra_paths_no_list (lit "{}") (lit "/opt/toolkit")
           (lit "{" ++ extra_paths_key ++ dq :: lit "a" ++ [dq])).
  - vm_compute. reflexivity.
  - left. apply (bool_decide_unpack _). by vm_compute.
Defined.

(** ** The interpreter setting *)

Lemma parse_template_bad_escape (plain rest : str) (c : ascii) :
  bslash ∉ plain →
  is_ascii_letter c = true → tpl_escape c = None → c ≠ "g"%char →
  parse_template (plain ++ bslash :: c :: rest) MText = Raise TemplateError.
Proof.
  intros Hplain Hletter Hesc Hg.
  induction plain as [|x plain IH].
  - clear Hplain.
    destruct c as [[] [] [] [] [] [] [] []];
      try discriminate Hletter; try discriminate Hesc; try done.
  - apply not_elem_of_cons in Hplain as [Hx Hplain].
    change ((x :: plain) ++ bslash :: c :: rest)
      with (x :: (plain ++ bslash :: c :: rest)).
    cbn [parse_template].
    destruct (Ascii.eqb_spec x bslash) as [->|_]; [done|].
    cbn [negb]. by rewrite (IH Hplain).
Qed.

Lemma new_interpreter_path_eq (isaac_sim_dir : str) :
  new_interpreter_path isaac_sim_dir
  = default_python_interpreter_key
    ++ dq :: dir_prefix isaac_sim_dir ++ lit "python.sh" ++ [dq].
Proof.
  unfold new_interpreter_path, os_path_join. cbn [foldl].
  rewrite (os_path_join2_relative _ (lit "python.sh")) by done.
  by rewrite <- app_assoc.
Qed.

(** X15. For a base directory whose first backslash is followed by an ASCII
    letter other than a, b, f, n, r, t, v and g (as in [C:\Users]), the
    call raises the error of the replacement template for every document,
    with or without the interpreter setting in it. *)
Theorem interpreter_bad_escape_raises (ws_settings before after : str)
    (c : ascii) :
  bslash ∉ before →
  is_ascii_letter c = true → tpl_escape c = None → c ≠ "g"%char →
  overwrite_python_default_interpreter_path ws_settings
    (before ++ bslash :: c :: after)
  = Raise TemplateError.
Proof.
  intros Hb Hletter Hesc Hg. apply interpreter_rejected_template.
  rewrite new_interpreter_path_eq.
  assert (∃ sfx, dir_prefix (before ++ bslash :: c :: after)
                 = before ++ bslash :: c :: sfx) as (sfx & ->).
  { unfold dir_prefix. destruct (_ || _); [by eexists|].
    exists (after ++ ["/"%char]). by rewrite <- app_assoc. }
  rewrite <- app_assoc.
  change (default_python_interpreter_key
          ++ dq :: before ++ (bslash :: c :: sfx) ++ lit "python.sh" ++ [dq])
    with (default_python_interpreter_key
          ++ [dq] ++ before ++ bslash :: c :: sfx ++ lit "python.sh" ++ [dq]).
  rewrite !app_assoc, <- (app_assoc default_python_interpreter_key).
  apply parse_template_bad_escape; try done.
  rewrite !not_elem_of_app. repeat split; try done;
    apply (bool_decide_unpack _); by vm_compute.
Qed.

Lemma interpreter_bad_escape_raises_witness :
  overwrite_python_default_interpreter_path
    (lit "{" ++ interpreter_literal ++ lit "}")
    (lit "C:" ++ bslash :: "U"%char :: lit "sers\me")
  = Raise TemplateError.
Proof.
  apply (interpreter_bad_escape_raises
           (lit "{" ++ interpreter_literal ++ lit "}")
           (lit "C:") (lit "sers\me") "U"%char).
  - apply (bool_decide_unpack _). by vm_compute.
  - reflexivity.
  - reflexivity.
  - discriminate.
Defined.

(** X16. With a base directory without backslash, a document in which the
    interpreter literal occurs once is returned with that occurrence
    replaced by the key and the quoted [os.path.join] of the base directory
    and [python.sh]; the text before and after it is unchanged. *)
Theorem interpreter_one_occurrence (isaac_sim_dir before after : str) :
  bslash ∉ isaac_sim_dir →
  none_before false (Some <$> interpreter_literal) before interpreter_literal
  = true →
  occurs interpreter_literal after = false →
  overwrite_python_default_interpreter_path
    (before ++ interpreter_literal ++ after) isaac_sim_dir
  = Ok (before ++ default_python_interpreter_key
        ++ dq :: os_path_join isaac_sim_dir [lit "python.sh"] ++ dq :: after).
Proof.
  intros Hd Hbefore Hafter. unfold overwrite_python_default_interpreter_path.
  fold interpreter_literal.
  pose proof (parse_template_plain _ (new_interpreter_path_plain _ Hd))
    as Hrepl.
  rewrite (re_sub_first _ _ _ _ _ interpreter_pattern_compiled Hrepl
             _ before interpreter_literal after after).
  - rewrite expand_template_plain. unfold new_interpreter_path.
    f_equal. f_equal. rewrite <- app_assoc. f_equal.
    change (dq :: os_path_join isaac_sim_dir [lit "python.sh"] ++ [dq])
      with ((dq :: os_path_join isaac_sim_dir [lit "python.sh"]) ++ [dq]).
    by rewrite <- app_assoc.
  - by apply search_from_literal_first.
  - done.
  - apply (re_sub_no_match _ _ _ _ _ interpreter_pattern_compiled Hrepl).
    apply search_from_none; [done|]. by apply none_before_literal.
Qed.

(** A base directory that ends with a slash: no second slash is added. *)
Lemma interpreter_one_occurrence_witness :
  overwrite_python_default_interpreter_path
    (lit "{" ++ interpreter_literal ++ lit "}") (lit "/opt/toolkit/")
  = Ok (lit "{" ++ default_python_interpreter_key
        ++ dq :: os_path_join (lit "/opt/toolkit/") [lit "python.sh"]
        ++ dq :: lit "}").
Proof.
  apply (interpreter_one_occurrence (lit "/opt/toolkit/") (lit "{") (lit "}")).
  - apply (bool_decide_unpack _). by vm_compute.
  - reflexivity.
  - reflexivity.
Defined.

Lemma interpreter_without_match_plain_witness :
  overwrite_python_default_interpreter_path (lit "{}") (lit "/opt/toolkit")
  = Ok (lit "{}").
Proof.
  apply (interpreter_without_match_plain (lit "{}") (lit "/opt/toolkit")).
  - apply (bool_decide_unpack _). by vm_compute.
  - reflexivity.
Defined.

Lemma template_without_marker_plain_witness :
  fst (overwrite_python_analysis_extra_paths (lit "{}")
         (lit "/opt/orbit/_isaac_sim") example_world)
  = Ok (lit "{}").
Proof.
  apply (template_without_marker_plain (lit "{}") (lit "/opt/orbit/_isaac_sim")
           (lit "{" ++ extra_paths_key ++ list_a_b [] [] [sp] [] ++ lit "]}")
           (list_a_b [] [] [sp] []) example_world).
  - apply (bool_decide_unpack _). by vm_compute.
  - apply (bool_decide_unpack _). by vm_compute.
  - vm_compute. reflexivity.
  - vm_compute. reflexivity.
  - reflexivity.
Defined.

(** ** The header *)

Lemma split_go_line (c : ascii) (a b : str) :
  c ∉ a → split_go [c] (a ++ [c] ++ b) 0 = a :: split_go [c] b 0.
Proof. apply split_go_char_first. Qed.

(** X19. When the path of the template has no newline, the header is four
    lines that each begin with [//], the last of them naming the path, and
    it ends with a newline: the document that follows starts on a line of
    its own and the header is comment only. *)
Theorem header_msg_lines (src : str) :
  nl ∉ src →
  split_go [nl] (header_msg src) 0
  = [lit "// This file is a template and is automatically generated by the setup_vscode.py script.";
     lit "// Do not edit this file directly.";
     lit "// ";
     lit "// Generated from: " ++ src;
     []]
  ∧ Forall (λ line, line = [] ∨ startswith (lit "//") line = true)
           (split_go [nl] (header_msg src) 0).
Proof.
  intros Hsrc.
  assert (split_go [nl] (header_msg src) 0
          = [lit "// This file is a template and is automatically generated by the setup_vscode.py script.";
             lit "// Do not edit this file directly.";
             lit "// ";
             lit "// Generated from: " ++ src;
             []]) as ->.
  { unfold header_msg.
    rewrite split_go_line by (apply (bool_decide_unpack _); by vm_compute).
    rewrite split_go_line by (apply (bool_decide_unpack _); by vm_compute).
    rewrite split_go_line by (apply (bool_decide_unpack _); by vm_compute).
    change (lit "// Generated from: " ++ src ++ [nl])
      with (lit "// Generated from: " ++ src ++ [nl] ++ []).
    rewrite (app_assoc (lit "// Generated from: ") src).
    rewrite split_go_line; [done|].
    rewrite not_elem_of_app. split; [|done].
    apply (bool_decide_unpack _). by vm_compute. }
  split; [done|].
  repeat (apply Forall_cons_2; [by auto|]). apply Forall_nil_2.
Qed.

Lemma header_msg_lines_witness :
  split_go [nl] (header_msg (lit "/ws/.vscode/tools/settings.template.json")) 0
  = [lit "// This file is a template and is automatically generated by the setup_vscode.py script.";
     lit "// Do not edit this file directly.";
     lit "// ";
     lit "// Generated from: " ++ lit "/ws/.vscode/tools/settings.template.json";
     []]
  ∧ Forall (λ line, line = [] ∨ startswith (lit "//") line = true)
           (split_go [nl]
              (header_msg (lit "/ws/.vscode/tools/settings.template.json")) 0).
Proof.
  apply (header_msg_lines (lit "/ws/.vscode/tools/settings.template.json")).
  apply (bool_decide_unpack _). by vm_compute.
Defined.

(** ** The run as a whole *)

(** X20. Without the settings template, a run of [main] checks that the
    template exists and does nothing else: it raises the error that names
    the template, and no file is read or written, the launch file
    included. *)
Theorem main_template_missing (ws_dir orbit_path : str) (w : world) :
  files w !! settings_template_path ws_dir = None →
  main ws_dir orbit_path w
  = (Raise (FileNotFoundError
              (lit "Could not find the orbit template settings file: "
               ++ settings_template_path ws_dir)),
     World (files w) (trace w ++ [EvExists (settings_template_path ws_dir)])).
Proof.
  intros H. unfold main, bind, os_path_exists. rewrite H.
  rewrite bool_decide_eq_false_2 by (by intros [? ?]). done.
Qed.

Lemma main_template_missing_witness :
  let w := World {[ lit "/ws/.vscode/launch.json" := lit "{}" ]} [] in
  main (lit "/ws") (lit "/opt/orbit") w
  = (Raise (FileNotFoundError
              (lit "Could not find the orbit template settings file: "
               ++ settings_template_path (lit "/ws"))),
     World (files w)
           (trace w ++ [EvExists (settings_template_path (lit "/ws"))])).
Proof.
  apply (main_template_missing (lit "/ws") (lit "/opt/orbit")
           (World {[ lit "/ws/.vscode/launch.json" := lit "{}" ]} [])).
  vm_compute. reflexivity.
Defined.

(** X21. What the workspace settings file held before a run has no effect:
    provided the isaac-sim settings file is another file, two runs from
    states that differ in the workspace settings file alone end in the same
    way, and when they end without error they leave the same files. *)
Theorem main_ignores_existing_settings (ws_dir orbit_path : str)
    (w w' : world) :
  isaacsim_vscode_filename (os_path_join orbit_path [lit "_isaac_sim"])
  ≠ settings_path ws_dir →
  (∀ path, path ≠ settings_path ws_dir → files w' !! path = files w !! path) →
  fst (main ws_dir orbit_path w') = fst (main ws_dir orbit_path w)
  ∧ (fst (main ws_dir orbit_path w) = Ok () →
     files (snd (main ws_dir orbit_path w'))
     = files (snd (main ws_dir orbit_path w))).
Proof.
  intros Hfn Hsame.
  set (isaacsim_path := os_path_join orbit_path [lit "_isaac_sim"]) in *.
  pose proof (main_run ws_dir orbit_path w) as Hrun.
  pose proof (main_run ws_dir orbit_path w') as Hrun'.
  cbv zeta in Hrun, Hrun'. fold isaacsim_path in Hrun, Hrun'.
  rewrite (Hsame _ (not_eq_sym (settings_path_ne_settings_template_path ws_dir)))
    in Hrun'.
  destruct (files w !! settings_template_path ws_dir) as [tpl|].
  2:{ destruct Hrun as [Ho _], Hrun' as [Ho' _]. rewrite Ho, Ho'.
      split; [done|]. discriminate. }
  rewrite (extra_paths_outcome_agree tpl isaacsim_path w' w (Hsame _ Hfn))
    in Hrun'.
  destruct (obind _ _) as [s|e|].
  2,3: destruct Hrun as [Ho _], Hrun' as [Ho' _]; rewrite Ho, Ho';
       split; [done|]; discriminate.
  rewrite (Hsame _ (launch_path_ne_settings_path ws_dir)) in Hrun'.
  rewrite (Hsame _ (not_eq_sym (settings_path_ne_launch_template_path ws_dir)))
    in Hrun'.
  destruct Hrun as [Ho Hf], Hrun' as [Ho' Hf']. rewrite Ho, Ho', Hf, Hf'.
  split; [done|]. intros _.
  assert (<[settings_path ws_dir :=
              header_msg (settings_template_path ws_dir) ++ s]> (files w')
          = <[settings_path ws_dir :=
                header_msg (settings_template_path ws_dir) ++ s]> (files w))
    as ->; [|done].
  apply map_eq. intros path.
  destruct (decide (path = settings_path ws_dir)) as [->|Hne].
  - by rewrite !lookup_insert_eq.
  - rewrite !lookup_insert_ne by done. by apply Hsame.
Qed.

Lemma main_ignores_existing_settings_witness :
  let w' := World (<[settings_path (lit "/ws") := lit "{ my settings }"]>
                     (files example_world)) [] in
  fst (main (lit "/ws") (lit "/opt/orbit") w')
  = fst (main (lit "/ws") (lit "/opt/orbit") example_world)
  ∧ (fst (main (lit "/ws") (lit "/opt/orbit") example_world) = Ok () →
     files (snd (main (lit "/ws") (lit "/opt/orbit") w'))
     = files (snd (main (lit "/ws") (lit "/opt/orbit") example_world))).
Proof.
  apply (main_ignores_existing_settings (lit "/ws") (lit "/opt/orbit")
           example_world
           (World (<[settings_path (lit "/ws") := lit "{ my settings }"]>
                     (files example_world)) [])).
  - vm_compute. discriminate.
  - intros path Hne. cbn [files]. by rewrite lookup_insert_ne.
Defined.
